(** * LearnFlow: the quiz-taking component (components/quiz/QuizTaker)

    A shallow embedding of the state, the event handlers, the timer effect
    and the rendered controls of the [QuizTaker] React component, and the
    properties of its quiz session that follow from them; with it, the
    question list and the check of the [QuizCreator] component and the
    percentages of the [ProgressTracker] component.

    Layout:
    - [JSNumber]: the fragment of ECMAScript numbers the component uses;
    - the quiz data ([Question], [Quiz]) and the component state ([State]);
    - the handlers, one definition per source function, under the source's
      names;
    - the timer effect and the component as a transition system ([World]);
    - the rendered controls and the events of a mounted component;
    - the check the quiz creator runs before it saves a quiz;
    - the clock, the quiz creator's questions and the progress tracker;
    - lemmas on the timer, the scoring and the invariants of a session;
    - the properties of the session, C1 to C10;
    - further properties of the session, of the quiz creator and of the
      progress tracker. *)

From Stdlib Require Import ZArith SpecFloat Bool Lia.
From stdpp Require Import gmap list strings pretty fin_maps.

Open Scope Z_scope.

(** ** ECMAScript numbers *)

Module JSNumber.

(** The values the component's numeric state can take.  A count of
    seconds or a percentage is an integer-valued double, exact below
    [2^53]; [NaN] arises from [undefined * 60] and from [0 / 0]. *)
Inductive number : Type :=
| NaN
| Infinity (negative : bool)
| Int (z : Z).

#[global] Instance number_eq_dec : EqDecision number.
Proof. solve_decision. Defined.

(** [x * y] on integer-valued numbers. *)
Definition mul (x y : number) : number :=
  match x, y with
  | NaN, _ | _, NaN => NaN
  | Infinity s, Infinity t => Infinity (xorb s t)
  | Infinity s, Int z | Int z, Infinity s =>
      if z =? 0 then NaN else Infinity (xorb s (z <? 0))
  | Int a, Int b => Int (a * b)
  end.

(** [x - y]. *)
Definition sub (x y : number) : number :=
  match x, y with
  | NaN, _ | _, NaN => NaN
  | Infinity s, Infinity t => if eqb s t then NaN else Infinity s
  | Infinity s, Int _ => Infinity s
  | Int _, Infinity t => Infinity (negb t)
  | Int a, Int b => Int (a - b)
  end.

(** [x > 0]. *)
Definition gt0 (x : number) : bool :=
  match x with
  | NaN => false
  | Infinity s => negb s
  | Int z => 0 <? z
  end.

(** [x === 0]. *)
Definition is0 (x : number) : bool :=
  match x with
  | Int z => z =? 0
  | _ => false
  end.

(** Doubles: IEEE 754 binary64, as specified by [SpecFloat]
    (round to nearest, ties to even). *)
Definition prec : Z := 53.
Definition emax : Z := 1024.

(** The double nearest to an integer (the integer itself below [2^53]). *)
Definition of_Z (z : Z) : spec_float := binary_normalize prec emax z 0 false.

Definition fdiv (x y : spec_float) : spec_float := SFdiv prec emax x y.
Definition fmul (x y : spec_float) : spec_float := SFmul prec emax x y.

(** [Math.round]: the integer nearest to [x], ties towards [+Infinity],
    that is [floor (x + 1/2)] computed exactly on the value
    [(-1)^s * m * 2^e] of the double. *)
Definition Math_round (x : spec_float) : number :=
  match x with
  | S754_nan => NaN
  | S754_infinity s => Infinity s
  | S754_zero _ => Int 0
  | S754_finite s m e =>
      let v := if s then Z.neg m else Z.pos m in
      Int (if 0 <=? e then v * 2 ^ e
           else (2 * v + 2 ^ (- e)) / 2 ^ (- e + 1))
  end.

End JSNumber.

Import JSNumber.

(** ** Quiz data *)

(** One entry of [quiz.questions]. *)
Record Question : Type := mkQuestion {
  question : string;
  options : list string;
  correctAnswer : nat;
  explanation : string
}.

(** The [quiz] prop.  The component only ever uses [quiz.timeLimit * 60]
    and [quiz.timeLimit > 0], so [timeLimit] is the number these
    conversions see: [NaN] for an absent limit, and the number typed for
    a limit that arrives from the quiz creator's input as a string. *)
Record Quiz : Type := mkQuiz {
  title : string;
  timeLimit : number;
  questions : list Question
}.

(** ** Component state *)

(** The six [useState] cells.  [answers] is a JavaScript object keyed by
    question index. *)
Record State : Type := mkState {
  currentQuestion : nat;
  answers : gmap nat nat;
  timeRemaining : number;
  quizCompleted : bool;
  showResults : bool;
  score : number
}.

(** The record passed to [onComplete] ([completedAt], the wall-clock
    time of the call, is left out). *)
Record QuizResult : Type := mkQuizResult {
  result_answers : gmap nat nat;
  result_score : number;
  result_timeSpent : number
}.

(** [useState(0)], [useState({})], [useState(quiz.timeLimit * 60)],
    [useState(false)], [useState(false)], [useState(0)]. *)
Definition initialState (quiz : Quiz) : State :=
  {| currentQuestion := 0;
     answers := ∅;
     timeRemaining := mul (timeLimit quiz) (Int 60);
     quizCompleted := false;
     showResults := false;
     score := Int 0 |}.

(** ** Handlers *)

(** [setAnswers(prev => ({...prev, [questionIndex]: answerIndex}))]. *)
Definition handleAnswerSelect (questionIndex answerIndex : nat) (s : State) : State :=
  {| currentQuestion := currentQuestion s;
     answers := <[questionIndex := answerIndex]> (answers s);
     timeRemaining := timeRemaining s;
     quizCompleted := quizCompleted s;
     showResults := showResults s;
     score := score s |}.

(** The state setter the jump buttons call directly. *)
Definition setCurrentQuestion (index : nat) (s : State) : State :=
  {| currentQuestion := index;
     answers := answers s;
     timeRemaining := timeRemaining s;
     quizCompleted := quizCompleted s;
     showResults := showResults s;
     score := score s |}.

(** [if (currentQuestion < quiz.questions.length - 1) setCurrentQuestion(prev => prev + 1)]. *)
Definition handleNext (quiz : Quiz) (s : State) : State :=
  if Z.of_nat (currentQuestion s) <? Z.of_nat (length (questions quiz)) - 1
  then setCurrentQuestion (S (currentQuestion s)) s
  else s.

(** [if (currentQuestion > 0) setCurrentQuestion(prev => prev - 1)]. *)
Definition handlePrevious (s : State) : State :=
  if 0 <? Z.of_nat (currentQuestion s)
  then setCurrentQuestion (pred (currentQuestion s)) s
  else s.

(** [answers[index] === question.correctAnswer]; a missing entry is
    [undefined], which is never strictly equal to a number. *)
Definition isCorrect (a : gmap nat nat) (index : nat) (q : Question) : bool :=
  bool_decide (a !! index = Some (correctAnswer q)).

(** The [forEach] loop of [calculateScore], from position [index] on:
    the number of [correct++]. *)
Fixpoint countCorrect (a : gmap nat nat) (index : nat) (qs : list Question) : nat :=
  match qs with
  | [] => 0%nat
  | q :: rest =>
      ((if isCorrect a index q then 1 else 0) + countCorrect a (S index) rest)%nat
  end.

(** [Math.round((correct / quiz.questions.length) * 100)], in doubles:
    the quotient is rounded to a double first, then the product. *)
Definition percentage (correct len : nat) : number :=
  Math_round (fmul (fdiv (of_Z (Z.of_nat correct)) (of_Z (Z.of_nat len))) (of_Z 100)).

Definition calculateScore (quiz : Quiz) (a : gmap nat nat) : number :=
  percentage (countCorrect a 0 (questions quiz)) (length (questions quiz)).

(** [handleSubmitQuiz]: the new state and the argument of [onComplete]. *)
Definition handleSubmitQuiz (quiz : Quiz) (s : State) : State * QuizResult :=
  let finalScore := calculateScore quiz (answers s) in
  ({| currentQuestion := currentQuestion s;
      answers := answers s;
      timeRemaining := timeRemaining s;
      quizCompleted := true;
      showResults := true;
      score := finalScore |},
   {| result_answers := answers s;
      result_score := finalScore;
      result_timeSpent := sub (mul (timeLimit quiz) (Int 60)) (timeRemaining s) |}).

(** [handleRestart]: every cell is set back to its initial value. *)
Definition handleRestart (quiz : Quiz) (s : State) : State :=
  {| currentQuestion := 0;
     answers := ∅;
     timeRemaining := mul (timeLimit quiz) (Int 60);
     quizCompleted := false;
     showResults := false;
     score := Int 0 |}.

(** [answers.hasOwnProperty(index)]. *)
Definition hasOwnProperty (a : gmap nat nat) (index : nat) : bool :=
  bool_decide (is_Some (a !! index)).

(** [quiz.questions.every((_, index) => answers.hasOwnProperty(index))]. *)
Definition allQuestionsAnswered (quiz : Quiz) (s : State) : bool :=
  forallb (hasOwnProperty (answers s)) (seq 0 (length (questions quiz))).

(** [Object.values(answers)]: the own property values in ascending order
    of the integer keys, whatever the order of insertion. *)
Definition Object_values (a : gmap nat nat) : list nat :=
  omap (λ index, a !! index) (seq 0 (S (max_list (elements (dom a))))).

(** [values.filter((answer, index) => answer === quiz.questions[index].correctAnswer).length]
    from position [index] on.  [None] is the [TypeError] raised when
    [quiz.questions[index]] is [undefined]. *)
Fixpoint filterCorrect (quiz : Quiz) (index : nat) (values : list nat) : option nat :=
  match values with
  | [] => Some 0%nat
  | answer :: rest =>
      match questions quiz !! index with
      | None => None
      | Some q =>
          match filterCorrect quiz (S index) rest with
          | None => None
          | Some n => Some ((if bool_decide (answer = correctAnswer q) then 1 else 0) + n)%nat
          end
      end
  end.

(** The "Correct Answers" figure of the results summary. *)
Definition summaryCorrect (quiz : Quiz) (s : State) : option nat :=
  filterCorrect quiz 0 (Object_values (answers s)).

(** ** The timer effect and the component as a transition system *)

(** The component state together with the calls made to [onComplete],
    oldest first. *)
Record World : Type := mkWorld {
  session : State;
  delivered : list QuizResult
}.

Definition onSession (f : State → State) (w : World) : World :=
  {| session := f (session w); delivered := delivered w |}.

(** A call of [handleSubmitQuiz] in the component. *)
Definition submit (quiz : Quiz) (w : World) : World :=
  let '(s, r) := handleSubmitQuiz quiz (session w) in
  {| session := s; delivered := delivered w ++ [r] |}.

(** The condition under which the effect leaves a one-second timeout
    pending. *)
Definition timerPending (s : State) : bool :=
  gt0 (timeRemaining s) && negb (quizCompleted s).

(** The [useEffect] body, run after the first render and after every
    render in which [timeRemaining] or [quizCompleted] changed.  In the
    first branch it only schedules the timeout; the effect run that
    follows a submission finds [quizCompleted] set and does nothing. *)
Definition timerEffect (quiz : Quiz) (w : World) : World :=
  if gt0 (timeRemaining (session w)) && negb (quizCompleted (session w)) then w
  else if is0 (timeRemaining (session w)) && negb (quizCompleted (session w))
       then submit quiz w
       else w.

(** Mounting the component: the initial state, then the first run of the
    effect.  This is for a quiz with a first question; the first render
    of any other quiz throws and no effect ever runs (see [renders], and
    [start], which tells the two apart). *)
Definition mount (quiz : Quiz) : World :=
  timerEffect quiz {| session := initialState quiz; delivered := [] |}.

(** [setTimeRemaining(prev => prev - 1)]. *)
Definition decrement (s : State) : State :=
  {| currentQuestion := currentQuestion s;
     answers := answers s;
     timeRemaining := sub (timeRemaining s) (Int 1);
     quizCompleted := quizCompleted s;
     showResults := showResults s;
     score := score s |}.

(** One second passes: the pending timeout, if there is one, fires, and
    the effect runs again on the new [timeRemaining]. *)
Definition tick (quiz : Quiz) (w : World) : World :=
  if timerPending (session w)
  then timerEffect quiz (onSession decrement w)
  else w.

(** The operations of a session, as calls of the handlers. *)
Inductive Op : Type :=
| SelectAnswer (questionIndex answerIndex : nat)
| GoToQuestion (index : nat)
| Next
| Previous
| Tick
| Submit
| Restart.

Definition step (quiz : Quiz) (w : World) (op : Op) : World :=
  match op with
  | SelectAnswer i k => onSession (handleAnswerSelect i k) w
  | GoToQuestion i => onSession (setCurrentQuestion i) w
  | Next => onSession (handleNext quiz) w
  | Previous => onSession handlePrevious w
  | Tick => tick quiz w
  | Submit => timerEffect quiz (submit quiz w)
  | Restart => timerEffect quiz (onSession (handleRestart quiz) w)
  end.

(** ** Rendered controls *)

(** The controls that call into the component.  (The results view also
    has a button for [onExit], which belongs to the parent.) *)
Inductive Control : Type :=
| OptionRadio (index : nat)
| PreviousButton
| JumpButton (index : nat)
| NextButton
| SubmitButton
| RetakeButton.

(** [currentQuestion === quiz.questions.length - 1]. *)
Definition onLastQuestion (quiz : Quiz) (s : State) : bool :=
  Z.of_nat (currentQuestion s) =? Z.of_nat (length (questions quiz)) - 1.

(** Whether the rendered output contains the control.  With
    [showResults] the results view is returned; otherwise the question
    view, which reads [quiz.questions[currentQuestion].question] and
    throws when that question is [undefined]. *)
Definition rendered (quiz : Quiz) (s : State) (c : Control) : bool :=
  if showResults s then
    match summaryCorrect quiz s, c with
    | Some _, RetakeButton => true
    | _, _ => false
    end
  else
    match questions quiz !! currentQuestion s with
    | None => false
    | Some q =>
        match c with
        | OptionRadio index => bool_decide (index < length (options q))%nat
        | PreviousButton => true
        | JumpButton index => bool_decide (index < length (questions quiz))%nat
        | NextButton => negb (onLastQuestion quiz s)
        | SubmitButton => onLastQuestion quiz s
        | RetakeButton => false
        end
    end.

(** The [disabled] prop of the control. *)
Definition disabled (quiz : Quiz) (s : State) (c : Control) : bool :=
  match c with
  | PreviousButton => bool_decide (currentQuestion s = 0%nat)
  | NextButton => negb (hasOwnProperty (answers s) (currentQuestion s))
  | SubmitButton => negb (allQuestionsAnswered quiz s)
  | _ => false
  end.

(** The handler wired to the control. *)
Definition handler (s : State) (c : Control) : Op :=
  match c with
  | OptionRadio index => SelectAnswer (currentQuestion s) index
  | PreviousButton => Previous
  | JumpButton index => GoToQuestion index
  | NextButton => Next
  | SubmitButton => Submit
  | RetakeButton => Restart
  end.

(** A click: it reaches the handler when the control is rendered and
    not disabled.  (A radio that is already checked raises no [onChange];
    the handler would record the same option again, which changes
    nothing.) *)
Definition click (quiz : Quiz) (c : Control) (w : World) : World :=
  if rendered quiz (session w) c && negb (disabled quiz (session w) c)
  then step quiz w (handler (session w) c)
  else w.

(** ** Sessions as seen from outside *)

Inductive Status : Type :=
| InProgress
| Submitted.

Definition status (s : State) : Status :=
  if quizCompleted s then Submitted else InProgress.

(** What can happen to a mounted component: the respondent clicks a
    control, or a second passes. *)
Inductive Event : Type :=
| Click (c : Control)
| Second.

Definition fire (quiz : Quiz) (w : World) (e : Event) : World :=
  match e with
  | Click c => click quiz c w
  | Second => tick quiz w
  end.

Definition play (quiz : Quiz) (events : list Event) (w : World) : World :=
  foldl (fire quiz) w events.

(** The number of seconds that pass in a sequence of events. *)
Fixpoint seconds (events : list Event) : nat :=
  match events with
  | [] => 0%nat
  | Second :: rest => S (seconds rest)
  | Click _ :: rest => seconds rest
  end.

(** Events other than a click on Submit or Retake. *)
Definition keepsGoing (e : Event) : bool :=
  match e with
  | Click SubmitButton | Click RetakeButton => false
  | _ => true
  end.

(** [quiz.timeLimit > 0 && ...]: whether the header shows the clock. *)
Definition clockShown (quiz : Quiz) : bool := gt0 (timeLimit quiz).

(** ** The check of the quiz creator *)

(** Text is held in UTF-8, as in the string literals of this file: a
    code point is one to four bytes.  [whiteSpace bytes]: whether the
    bytes are a sequence of code points that [trim] strips, which are
    [WhiteSpace] (U+0009, U+000B, U+000C, U+FEFF and the space
    separators U+0020, U+00A0, U+1680, U+2000 to U+200A, U+202F, U+205F
    and U+3000) and [LineTerminator] (U+000A, U+000D, U+2028 and
    U+2029). *)
Fixpoint whiteSpace (bytes : list N) : bool :=
  match bytes with
  | [] => true
  | b :: rest =>
      if bool_decide (b ∈ [9; 10; 11; 12; 13; 32]%N) then whiteSpace rest
      else
        match b, rest with
        | 194%N, 160%N :: rest' => whiteSpace rest'
        | 225%N, 154%N :: 128%N :: rest' => whiteSpace rest'
        | 226%N, 128%N :: c :: rest' =>
            ((128 <=? c)%N && (c <=? 138)%N || (c =? 168)%N || (c =? 169)%N || (c =? 175)%N)
            && whiteSpace rest'
        | 226%N, 129%N :: 159%N :: rest' => whiteSpace rest'
        | 227%N, 128%N :: 128%N :: rest' => whiteSpace rest'
        | 239%N, 187%N :: 191%N :: rest' => whiteSpace rest'
        | _, _ => false
        end
  end.

(** [!s.trim()]: nothing is left of [s] once the white space and the
    line terminators at its two ends are stripped, that is, [s] consists
    of them. *)
Definition blank (s : string) : bool :=
  whiteSpace (Ascii.N_of_ascii <$> String.list_ascii_of_string s).

(** The text that consists of the given bytes. *)
Definition utf8 (bytes : list N) : string :=
  String.string_of_list_ascii (Ascii.ascii_of_N <$> bytes).

(** The body of the [forEach] of [validateQuiz] for one question. *)
Definition questionErrors (newErrors : gmap string string) (index : nat) (q : Question)
  : gmap string string :=
  let withText :=
    if blank (question q)
    then <["question_" +:+ pretty index := "Question text is required"]> newErrors
    else newErrors in
  if (length (filter (λ opt, blank opt = false) (options q)) <? 2)%nat
  then <["options_" +:+ pretty index := "At least 2 options are required"]> withText
  else withText.

Fixpoint forEachQuestion (index : nat) (qs : list Question) (newErrors : gmap string string)
  : gmap string string :=
  match qs with
  | [] => newErrors
  | q :: rest => forEachQuestion (S index) rest (questionErrors newErrors index q)
  end.

(** The [newErrors] object that [validateQuiz] of the quiz creator
    builds for the quiz being saved. *)
Definition newErrors (quizData : Quiz) : gmap string string :=
  let withTitle :=
    if blank (title quizData)
    then <["title" := "Quiz title is required"]> ∅
    else ∅ in
  let withQuestions :=
    if bool_decide (length (questions quizData) = 0%nat)
    then <["questions" := "At least one question is required"]> withTitle
    else withTitle in
  forEachQuestion 0 (questions quizData) withQuestions.

(** [Object.keys(newErrors).length === 0]; the quiz is saved only when
    this holds. *)
Definition validateQuiz (quizData : Quiz) : bool :=
  bool_decide (size (newErrors quizData) = 0%nat).

(** ** Invariants of a session *)

(** Every key of [answers] is the index of a question. *)
Definition keysInRange (quiz : Quiz) (s : State) : Prop :=
  ∀ index, is_Some (answers s !! index) → (index < length (questions quiz))%nat.

(** The current question exists. *)
Definition currentInRange (quiz : Quiz) (s : State) : Prop :=
  (currentQuestion s < length (questions quiz))%nat.

(** Whether rendering the state returns a view rather than throwing:
    the results view evaluates the summary count, the question view
    reads the current question. *)
Definition renders (quiz : Quiz) (s : State) : bool :=
  if showResults s
  then bool_decide (is_Some (summaryCorrect quiz s))
  else bool_decide (is_Some (questions quiz !! currentQuestion s)).

(** Rendering the component for a quiz.  The state cells are
    initialised, and the first render reads
    [quiz.questions[0].question]: for a quiz without questions it throws
    a [TypeError], which is [None], and nothing of the component runs,
    no effect and no handler; otherwise the component is mounted. *)
Definition start (quiz : Quiz) : option World :=
  if renders quiz (initialState quiz) then Some (mount quiz) else None.

(** ** Sample quizzes *)

Definition sampleQuestion (correct : nat) : Question :=
  {| question := "Q"; options := ["a"; "b"; "c"; "d"];
     correctAnswer := correct; explanation := "" |}.

(** Three questions whose correct options are 1, 0 and 2. *)
Definition quiz3 (limit : number) : Quiz :=
  {| title := "Sample"; timeLimit := limit;
     questions := [sampleQuestion 1; sampleQuestion 0; sampleQuestion 2] |}.

(** The respondent answers 1, 0 and 0, moving on with Next. *)
Definition answering3 : list Event :=
  [Click (OptionRadio 1); Click NextButton;
   Click (OptionRadio 0); Click NextButton;
   Click (OptionRadio 0)].

(** The attempt of [answering3], submitted with the Submit button. *)
Definition submitted3 : World :=
  play (quiz3 (Int 10)) (answering3 ++ [Click SubmitButton]) (mount (quiz3 (Int 10))).

(** A quiz without questions. *)
Definition emptyQuiz : Quiz :=
  {| title := "Empty"; timeLimit := Int 10; questions := [] |}.

(** Forty questions, all with correct option 0. *)
Definition quiz40 : Quiz :=
  {| title := "Forty"; timeLimit := Int 30;
     questions := replicate 40 (sampleQuestion 0) |}.

(** Questions 0 to 22 answered with option 0, the others with option 1. *)
Definition answers23of40 : gmap nat nat :=
  list_to_map (map (λ i, (i, if (i <? 23)%nat then 0%nat else 1%nat)) (seq 0 40)).

Definition session23of40 : State :=
  {| currentQuestion := 39;
     answers := answers23of40;
     timeRemaining := Int 900;
     quizCompleted := false;
     showResults := false;
     score := Int 0 |}.

(** The percentage the specification's formula describes:
    [100 * correct / len] as an exact fraction, rounded to the nearest
    integer, ties upwards. *)
Definition roundedPercentage (correct len : nat) : Z :=
  (200 * Z.of_nat correct + Z.of_nat len) / (2 * Z.of_nat len).

(** The respondent has answered the first of three questions and has
    jumped to the last one; ten minutes are left. *)
Definition partial3 : World :=
  play (quiz3 (Int 10)) [Click (OptionRadio 1); Click (JumpButton 2)]
       (mount (quiz3 (Int 10))).

(** Time runs out on a one-minute quiz with only the last question
    answered, correctly. *)
Definition lastOnly3 : State :=
  session (play (quiz3 (Int 1))
                ([Click (JumpButton 2); Click (OptionRadio 2)] ++ replicate 60 Second)
                (mount (quiz3 (Int 1)))).

(** Whether the double computation and the exact rounding agree on
    every count of every quiz of up to [n] questions. *)
Definition agreesUpTo (n : nat) : bool :=
  forallb (λ len,
    forallb (λ correct,
      bool_decide (percentage correct len = Int (roundedPercentage correct len)))
      (seq 0 (S len)))
    (seq 1 n).

(** ** Sessions without Retake or Submit, and what they keep *)

(** Clicks other than Retake. *)
Definition noRetake (e : Event) : bool :=
  match e with
  | Click RetakeButton => false
  | _ => true
  end.

(** Events other than a click on Submit. *)
Definition noSubmitClick (e : Event) : bool :=
  match e with
  | Click SubmitButton => false
  | _ => true
  end.

(** The result of the latest submission is the one on show. *)
Definition shownIsDelivered (quiz : Quiz) (w : World) : Prop :=
  quizCompleted (session w) = true →
  showResults (session w) = true
  ∧ score (session w) = calculateScore quiz (answers (session w))
  ∧ last (delivered w)
    = Some {| result_answers := answers (session w);
              result_score := score (session w);
              result_timeSpent :=
                sub (mul (timeLimit quiz) (Int 60)) (timeRemaining (session w)) |}.

(** Without Retake, [onComplete] has been called once if the session
    is submitted and not at all if it is in progress. *)
Definition deliveredOnce (w : World) : Prop :=
  showResults (session w) = quizCompleted (session w)
  ∧ length (delivered w) = if quizCompleted (session w) then 1%nat else 0%nat.

(** The timer is within the limit. *)
Definition withinLimit (m : Z) (w : World) : Prop :=
  ∃ t, timeRemaining (session w) = Int t ∧ 0 ≤ t ≤ 60 * m.

(** The timer is within the limit and is at zero only in a submitted
    session. *)
Definition timeInvariant (m : Z) (w : World) : Prop :=
  ∃ t, timeRemaining (session w) = Int t ∧ 0 ≤ t ≤ 60 * m
       ∧ (t = 0 → quizCompleted (session w) = true).

(** ** The clock and the progress bar *)

(** [Math.floor(x / 60)]. *)
Definition floor60 (x : number) : number :=
  match x with
  | NaN => NaN
  | Infinity s => Infinity s
  | Int z => Int (z / 60)
  end.

(** [x % 60]: the remainder has the sign of [x]. *)
Definition rem60 (x : number) : number :=
  match x with
  | Int z => Int (Z.rem z 60)
  | _ => NaN
  end.

(** [x.toString()] where a number meets a string. *)
Definition toString (x : number) : string :=
  match x with
  | NaN => "NaN"
  | Infinity false => "Infinity"
  | Infinity true => "-Infinity"
  | Int z => pretty z
  end.

(** [s.padStart(2, '0')]. *)
Definition padStart2 (s : string) : string :=
  match String.length s with
  | 0%nat => "00"
  | 1%nat => "0" +:+ s
  | _ => s
  end.

(** [formatTime]: minutes, a colon, and the seconds on two places. *)
Definition formatTime (seconds : number) : string :=
  toString (floor60 seconds) +:+ ":" +:+ padStart2 (toString (rem60 seconds)).

(** The seconds field for each of the sixty remainders: whether all
    have two characters and no two are the same. *)
Definition secondsFieldsDistinct : bool :=
  forallb (λ k,
    (String.length (padStart2 (pretty (Z.of_nat k))) =? 2)%nat
    && forallb (λ k',
         implb (String.eqb (padStart2 (pretty (Z.of_nat k)))
                           (padStart2 (pretty (Z.of_nat k'))))
               (k =? k')%nat)
       (seq 0 60))
    (seq 0 60).

(** [getProgress]: [Math.round(((currentQuestion + 1) / quiz.questions.length) * 100)]. *)
Definition getProgress (quiz : Quiz) (s : State) : number :=
  percentage (S (currentQuestion s)) (length (questions quiz)).

(** Whether, for a quiz of [len] questions, every count from 0 to [len]
    gets a percentage from 0 to 100 that is 0 for the count 0 only, 100
    for the count [len] only, and not smaller than that of the count
    before. *)
Definition wellScored (len : nat) : bool :=
  forallb (λ c,
    match percentage c len, percentage (S c) len with
    | Int p, Int p' =>
        (0 <=? p) && (p <=? 100)
        && Bool.eqb (p =? 0) (c =? 0)%nat
        && Bool.eqb (p =? 100) (c =? len)%nat
        && ((len <=? c)%nat || (p <=? p'))
    | _, _ => false
    end) (seq 0 (S len)).

(** ** The quiz creator *)

(** What [validateQuiz] asks of one question: a text that is not blank
    and at least two options that are not blank. *)
Definition questionOk (q : Question) : Prop :=
  blank (question q) = false
  ∧ (2 ≤ length (filter (λ opt, blank opt = false) (options q)))%nat.

(** The keys under which [validateQuiz] files the errors of question
    [index]. *)
Definition questionKey (index : nat) : string := "question_" +:+ pretty index.
Definition optionsKey (index : nat) : string := "options_" +:+ pretty index.

(** The [id] of a question of the creator: [Date.now()] for a question
    added by hand, a string for a generated one.  [===] never holds
    between a number and a string. *)
Inductive QuestionId : Type :=
| NumberId (ms : Z)
| StringId (s : string).

#[global] Instance QuestionId_eq_dec : EqDecision QuestionId.
Proof. solve_decision. Defined.

(** A question of [quizData.questions]: its [id] and the fields a quiz
    is taken with. *)
Record Draft : Type := mkDraft {
  question_id : QuestionId;
  content : Question
}.

(** [quizData] of the creator. *)
Record QuizData : Type := mkQuizData {
  data_title : string;
  data_description : string;
  data_timeLimit : number;
  data_questions : list Draft
}.

Definition initialQuizData : QuizData :=
  {| data_title := ""; data_description := ""; data_timeLimit := Int 30;
     data_questions := [] |}.

(** [setQuizData(prev => ({ ...prev, questions: f(prev.questions) }))]. *)
Definition setQuestions (f : list Draft → list Draft) (prev : QuizData) : QuizData :=
  {| data_title := data_title prev;
     data_description := data_description prev;
     data_timeLimit := data_timeLimit prev;
     data_questions := f (data_questions prev) |}.

Definition newQuestion (now : Z) : Draft :=
  {| question_id := NumberId now;
     content := {| question := ""; options := [""; ""; ""; ""];
                   correctAnswer := 0; explanation := "" |} |}.

(** [addQuestion], called when [Date.now()] is [now]. *)
Definition addQuestion (now : Z) : QuizData → QuizData :=
  setQuestions (λ qs, qs ++ [newQuestion now]).

Definition removeQuestion (questionId : QuestionId) : QuizData → QuizData :=
  setQuestions (filter (λ q, question_id q ≠ questionId)).

(** The [updates] object of [updateQuestion]: the fields it carries. *)
Record Updates : Type := mkUpdates {
  new_id : option QuestionId;
  new_question : option string;
  new_options : option (list string);
  new_correctAnswer : option nat;
  new_explanation : option string
}.

(** [{ ...q, ...updates }]. *)
Definition spread (q : Draft) (updates : Updates) : Draft :=
  {| question_id := default (question_id q) (new_id updates);
     content :=
       {| question := default (question (content q)) (new_question updates);
          options := default (options (content q)) (new_options updates);
          correctAnswer := default (correctAnswer (content q)) (new_correctAnswer updates);
          explanation := default (explanation (content q)) (new_explanation updates) |} |}.

Definition updateQuestion (questionId : QuestionId) (updates : Updates)
  : QuizData → QuizData :=
  setQuestions (fmap (λ q, if decide (question_id q = questionId) then spread q updates else q)).

Definition updateOption (questionId : QuestionId) (optionIndex : nat) (value : string)
  : QuizData → QuizData :=
  setQuestions (fmap (λ q,
    if decide (question_id q = questionId)
    then {| question_id := question_id q;
            content :=
              {| question := question (content q);
                 options := imap (λ idx opt, if decide (idx = optionIndex) then value else opt)
                                 (options (content q));
                 correctAnswer := correctAnswer (content q);
                 explanation := explanation (content q) |} |}
    else q)).

(** The three objects the question editor passes to [updateQuestion]. *)
Definition questionUpdate (value : string) : Updates :=
  {| new_id := None; new_question := Some value; new_options := None;
     new_correctAnswer := None; new_explanation := None |}.

Definition correctAnswerUpdate (optionIndex : nat) : Updates :=
  {| new_id := None; new_question := None; new_options := None;
     new_correctAnswer := Some optionIndex; new_explanation := None |}.

Definition explanationUpdate (value : string) : Updates :=
  {| new_id := None; new_question := None; new_options := None;
     new_correctAnswer := None; new_explanation := Some value |}.

(** What [validateQuiz] and the quiz taker read of [quizData]. *)
Definition asQuiz (quizData : QuizData) : Quiz :=
  {| title := data_title quizData;
     timeLimit := data_timeLimit quizData;
     questions := content <$> data_questions quizData |}.

(** [handleSubmit]: the argument [onSave] is called with, if it is. *)
Definition handleSubmit (quizData : QuizData) : option QuizData :=
  if validateQuiz (asQuiz quizData) then Some quizData else None.

(** What happens in the creator's list of questions: a click on Add
    Question when [Date.now()] is [now]; in the editor of the question
    at [index], a click on the bin, typing in the question text, a click
    on the radio of option [optionIndex], typing in option
    [optionIndex], typing in the explanation; and a batch of generated
    questions, whose ids are strings, arriving. *)
Inductive CreatorEvent : Type :=
| AddQuestionClick (now : Z)
| RemoveClick (index : nat)
| QuestionInput (index : nat) (value : string)
| CorrectRadio (index optionIndex : nat)
| OptionInput (index optionIndex : nat) (value : string)
| ExplanationInput (index : nat) (value : string)
| Generated (generatedQuestions : list (string * Question)).

(** An editor is rendered for each question of the list, and in it a
    radio and an input for each of its options. *)
Definition creatorFire (quizData : QuizData) (e : CreatorEvent) : QuizData :=
  match e with
  | AddQuestionClick now => addQuestion now quizData
  | RemoveClick index =>
      match data_questions quizData !! index with
      | Some q => removeQuestion (question_id q) quizData
      | None => quizData
      end
  | QuestionInput index value =>
      match data_questions quizData !! index with
      | Some q => updateQuestion (question_id q) (questionUpdate value) quizData
      | None => quizData
      end
  | CorrectRadio index optionIndex =>
      match data_questions quizData !! index with
      | Some q =>
          if bool_decide (optionIndex < length (options (content q)))%nat
          then updateQuestion (question_id q) (correctAnswerUpdate optionIndex) quizData
          else quizData
      | None => quizData
      end
  | OptionInput index optionIndex value =>
      match data_questions quizData !! index with
      | Some q =>
          if bool_decide (optionIndex < length (options (content q)))%nat
          then updateOption (question_id q) optionIndex value quizData
          else quizData
      | None => quizData
      end
  | ExplanationInput index value =>
      match data_questions quizData !! index with
      | Some q => updateQuestion (question_id q) (explanationUpdate value) quizData
      | None => quizData
      end
  | Generated generatedQuestions =>
      setQuestions
        (λ qs, qs ++ ((λ g, {| question_id := StringId g.1; content := g.2 |})
                        <$> generatedQuestions))
        quizData
  end.

Definition creatorPlay (events : list CreatorEvent) (quizData : QuizData) : QuizData :=
  foldl creatorFire quizData events.

(** A question added by hand has four options and its correct answer
    among them. *)
Definition handBuilt (q : Draft) : Prop :=
  match question_id q with
  | NumberId _ =>
      length (options (content q)) = 4%nat ∧ (correctAnswer (content q) < 4)%nat
  | StringId _ => True
  end.

(** The creator's data once a title has been typed and nothing else. *)
Definition titled (value : string) : QuizData :=
  {| data_title := value; data_description := ""; data_timeLimit := Int 30;
     data_questions := [] |}.

(** A question added, its text typed, and its first two options. *)
Definition filledIn (now : Z) (text a b : string) (prev : QuizData) : QuizData :=
  updateOption (NumberId now) 1 b
    (updateOption (NumberId now) 0 a
       (updateQuestion (NumberId now) (questionUpdate text) (addQuestion now prev))).

(** ** The progress tracker *)

(** A lesson, by its [id]; a module with its [lessons], if it has the
    field; a course with its [modules], if it has the field; the
    [progress] prop with [completedLessons], if it has the field. *)
Record Lesson : Type := mkLesson {
  lesson_id : string
}.

Record CourseModule : Type := mkCourseModule {
  lessons : option (list Lesson)
}.

Record Course : Type := mkCourse {
  modules : option (list CourseModule)
}.

Record Progress : Type := mkProgress {
  completedLessons : option (list string)
}.

(** [module.lessons ? module.lessons.length : 0]. *)
Definition lessonCount (module : CourseModule) : nat :=
  match lessons module with
  | Some ls => length ls
  | None => 0%nat
  end.

(** [calculateOverallProgress]; [progress] is [None] when the prop is
    [null] or [undefined]. *)
Definition calculateOverallProgress (course : Course) (progress : option Progress) : number :=
  match progress, modules course with
  | Some p, Some ms =>
      let totalLessons := foldl (λ total module, (total + lessonCount module)%nat) 0%nat ms in
      let completed :=
        match completedLessons p with
        | Some done => length done
        | None => 0%nat
        end in
      if (0 <? totalLessons)%nat then percentage completed totalLessons else Int 0
  | _, _ => Int 0
  end.

(** [progress?.completedLessons?.includes(lessonId) || false]. *)
Definition isLessonCompleted (progress : option Progress) (lessonId : string) : bool :=
  match progress with
  | Some p =>
      match completedLessons p with
      | Some done => bool_decide (lessonId ∈ done)
      | None => false
      end
  | None => false
  end.


(** The ids of all lessons of the modules, in order. *)
Definition lessonIds (ms : list CourseModule) : list string :=
  ms ≫= (λ module, lesson_id <$> default [] (lessons module)).

(** ** A run through the quiz *)

(** Taking the questions in turn: the radio of the correct option, then
    Next; and Submit at the end. *)
Definition answerInTurn (qs : list Question) : list Event :=
  qs ≫= (λ q, [Click (OptionRadio (correctAnswer q)); Click NextButton]).

Definition perfectRun (quiz : Quiz) : list Event :=
  answerInTurn (questions quiz) ++ [Click SubmitButton].

(** The correct option of the question is one of its options. *)
Definition answerable (q : Question) : Prop :=
  (correctAnswer q < length (options q))%nat.

(** ** Basic facts *)

Lemma status_Submitted (s : State) : status s = Submitted ↔ quizCompleted s = true.
Proof. unfold status. destruct (quizCompleted s); split; congruence. Qed.

Lemma status_InProgress (s : State) : status s = InProgress ↔ quizCompleted s = false.
Proof. unfold status. destruct (quizCompleted s); split; congruence. Qed.

(** A time limit that is positive stays positive in seconds, and one
    that is not zero does not become zero. *)
Lemma gt0_mul_60 (x : number) : gt0 (mul x (Int 60)) = gt0 x.
Proof.
  destruct x as [| [] | z]; simpl; try reflexivity.
  destruct (Z.ltb_spec 0 z), (Z.ltb_spec 0 (z * 60)); (reflexivity || lia).
Qed.

Lemma is0_mul_60 (x : number) : is0 (mul x (Int 60)) = is0 x.
Proof.
  destruct x as [| [] | z]; simpl; try reflexivity.
  destruct (Z.eqb_spec z 0), (Z.eqb_spec (z * 60) 0); (reflexivity || lia).
Qed.

(** The three ways through the effect; closes goals about parts of the
    state that [handleSubmitQuiz] leaves alone or sets in step. *)
Ltac effect_cases :=
  unfold timerEffect;
  destruct (gt0 _ && negb _); [done |];
  destruct (is0 _ && negb _); done.

(** The two ways through a guarded handler. *)
Ltac handler_cases :=
  unfold handleNext, handlePrevious;
  repeat match goal with |- context [if ?b then _ else _] => destruct b end;
  done.

(** ** The timer *)

Section Timer.

Context (quiz : Quiz).

Lemma timerEffect_completed (w : World) :
  quizCompleted (session w) = true → timerEffect quiz w = w.
Proof.
  intros H. unfold timerEffect. rewrite H. simpl.
  by rewrite !andb_false_r.
Qed.

Lemma timerEffect_not_zero (w : World) :
  is0 (timeRemaining (session w)) = false → timerEffect quiz w = w.
Proof.
  intros H. unfold timerEffect. rewrite H. simpl.
  by destruct (gt0 _ && negb _).
Qed.

Lemma timerEffect_zero (w : World) :
  timeRemaining (session w) = Int 0 → quizCompleted (session w) = false →
  timerEffect quiz w = submit quiz w.
Proof. intros Ht Hc. unfold timerEffect. by rewrite Ht, Hc. Qed.

Lemma tick_completed (w : World) :
  quizCompleted (session w) = true → tick quiz w = w.
Proof.
  intros H. unfold tick, timerPending. rewrite H. simpl.
  by rewrite andb_false_r.
Qed.

Lemma tick_not_positive (w : World) :
  gt0 (timeRemaining (session w)) = false → tick quiz w = w.
Proof. intros H. unfold tick, timerPending. by rewrite H. Qed.

(** More than one second left: the count goes down by one and nothing
    else changes. *)
Lemma tick_counts_down (w : World) (t : Z) :
  timeRemaining (session w) = Int t → 1 < t →
  quizCompleted (session w) = false →
  tick quiz w = onSession decrement w
  ∧ timeRemaining (session (tick quiz w)) = Int (t - 1).
Proof.
  intros Ht Hlt Hc.
  assert (tick quiz w = onSession decrement w) as ->.
  { unfold tick, timerPending. rewrite Ht, Hc. simpl.
    destruct (Z.ltb_spec 0 t); [| lia]. simpl.
    apply timerEffect_not_zero. simpl. rewrite Ht. simpl.
    destruct (Z.eqb_spec (t - 1) 0); [lia | done]. }
  split; [done |]. simpl. by rewrite Ht.
Qed.

(** The last second: the count reaches zero and the effect submits. *)
Lemma tick_expires (w : World) :
  timeRemaining (session w) = Int 1 →
  quizCompleted (session w) = false →
  tick quiz w = submit quiz (onSession decrement w).
Proof.
  intros Ht Hc. unfold tick, timerPending. rewrite Ht, Hc. simpl.
  apply timerEffect_zero; simpl; [by rewrite Ht | done].
Qed.

(** Mounting a quiz with a positive time limit leaves it running. *)
Lemma mount_timed (t : Z) :
  timeLimit quiz = Int t → 0 < t →
  mount quiz = {| session := initialState quiz; delivered := [] |}.
Proof.
  intros Ht Hpos. unfold mount. apply timerEffect_not_zero. simpl. rewrite Ht. simpl.
  destruct (Z.eqb_spec (t * 60) 0); [lia | done].
Qed.

(** Mounting a quiz whose time limit is zero submits it at once. *)
Lemma mount_zero_limit :
  timeLimit quiz = Int 0 →
  mount quiz = submit quiz {| session := initialState quiz; delivered := [] |}.
Proof.
  intros H. unfold mount. apply timerEffect_zero; simpl; [by rewrite H | done].
Qed.

(** Mounting a quiz with no [timeLimit] leaves it running, and no
    second ever changes it. *)
Lemma mount_absent_limit (n : nat) :
  timeLimit quiz = NaN →
  mount quiz = {| session := initialState quiz; delivered := [] |}
  ∧ Nat.iter n (tick quiz) (mount quiz) = mount quiz.
Proof.
  intros H.
  assert (mount quiz = {| session := initialState quiz; delivered := [] |}) as Hm.
  { unfold mount. apply timerEffect_not_zero. simpl. by rewrite H. }
  split; [done |].
  induction n as [| n IH]; [done |]. simpl. rewrite IH.
  apply tick_not_positive. rewrite Hm. simpl. by rewrite H.
Qed.

(** A click other than Submit and Retake leaves the timer, the status and
    the delivered results alone. *)
Lemma click_keepsGoing (c : Control) (w : World) :
  keepsGoing (Click c) = true →
  timeRemaining (session (click quiz c w)) = timeRemaining (session w)
  ∧ quizCompleted (session (click quiz c w)) = quizCompleted (session w)
  ∧ delivered (click quiz c w) = delivered w.
Proof.
  intros H. unfold click.
  destruct (rendered quiz (session w) c && negb (disabled quiz (session w) c)); [| done].
  destruct c; try done; simpl; handler_cases.
Qed.

(** While the seconds that pass are fewer than those left, the session
    stays in progress and the timer shows the difference. *)
Lemma play_counts_down (events : list Event) :
  ∀ (w : World) (t : Z),
    timeRemaining (session w) = Int t →
    quizCompleted (session w) = false →
    forallb keepsGoing events = true →
    Z.of_nat (seconds events) < t →
    timeRemaining (session (play quiz events w)) = Int (t - Z.of_nat (seconds events))
    ∧ quizCompleted (session (play quiz events w)) = false
    ∧ delivered (play quiz events w) = delivered w.
Proof.
  induction events as [| e events IH]; intros w t Ht Hc Hk Hs.
  - simpl. rewrite Z.sub_0_r. done.
  - simpl in Hk. apply andb_true_iff in Hk as [Hk1 Hk2].
    destruct e as [c |].
    + destruct (click_keepsGoing c w Hk1) as (Et & Ec & Ed).
      simpl in *. rewrite <- Ed. apply IH; [by rewrite Et | by rewrite Ec | done | done].
    + simpl in Hs.
      destruct (tick_counts_down w t Ht) as [Etick Et]; [lia | done |].
      assert (play quiz (Second :: events) w = play quiz events (tick quiz w)) as -> by done.
      destruct (IH (tick quiz w) (t - 1)) as (R1 & R2 & R3); [done | by rewrite Etick | done | lia |].
      rewrite R1, R2, R3. rewrite Etick. simpl.
      repeat split. f_equal. lia.
Qed.

End Timer.

(** ** Scoring *)

(** The attempt of [answering3]: answers 1, 0, 0 against correct options
    1, 0, 2 give two of three, and the score is 67. *)
Lemma score_two_of_three :
  answers (session submitted3) = <[0%nat := 1%nat]> (<[1%nat := 0%nat]> (<[2%nat := 0%nat]> ∅))
  ∧ countCorrect (answers (session submitted3)) 0 (questions (quiz3 (Int 10))) = 2%nat
  ∧ status (session submitted3) = Submitted
  ∧ score (session submitted3) = Int 67
  ∧ result_score <$> delivered submitted3 = [Int 67].
Proof. vm_compute. done. Qed.

Lemma agreesUpTo_39 : agreesUpTo 39 = true.
Proof. vm_compute. reflexivity. Qed.

(** Up to 39 questions the double computation and the exact rounding
    agree on every possible count. *)
Lemma percentage_exact_below_40 (correct len : nat) :
  (1 ≤ len ≤ 39)%nat → (correct ≤ len)%nat →
  percentage correct len = Int (roundedPercentage correct len).
Proof.
  intros Hlen Hc.
  pose proof agreesUpTo_39 as H. unfold agreesUpTo in H.
  rewrite forallb_forall in H.
  specialize (H len). rewrite forallb_forall in H.
  assert (In len (seq 1 39)) as Hin1 by (apply in_seq; lia).
  assert (In correct (seq 0 (S len))) as Hin2 by (apply in_seq; lia).
  specialize (H Hin1 correct Hin2).
  by apply bool_decide_eq_true in H.
Qed.

(** An answer that is wrong counts like no answer at all. *)
Lemma countCorrect_insert_wrong (a : gmap nat nat) (i wrong : nat) (qs : list Question) :
  ∀ index,
    (∀ q, (index ≤ i)%nat → qs !! (i - index)%nat = Some q →
          a !! i = None ∧ wrong ≠ correctAnswer q) →
    countCorrect (<[i := wrong]> a) index qs = countCorrect a index qs.
Proof.
  induction qs as [| q rest IH]; intros index H; [done |].
  simpl. rewrite IH.
  - f_equal. unfold isCorrect.
    destruct (decide (index = i)) as [-> | Hne].
    + destruct (H q) as [Hnone Hwrong]; [lia | by rewrite Nat.sub_diag |].
      rewrite lookup_insert_eq, Hnone.
      rewrite !bool_decide_eq_false_2; [done | done | congruence].
    + by rewrite lookup_insert_ne.
  - intros q' Hle Hq'. apply H; [lia |].
    replace (i - index)%nat with (S (i - S index)) by lia. done.
Qed.

Lemma calculateScore_insert_wrong (quiz : Quiz) (a : gmap nat nat) (index wrong : nat) (q : Question) :
  questions quiz !! index = Some q → a !! index = None → wrong ≠ correctAnswer q →
  calculateScore quiz (<[index := wrong]> a) = calculateScore quiz a.
Proof.
  intros Hq Hnone Hwrong. unfold calculateScore.
  rewrite countCorrect_insert_wrong; [done |].
  intros q' _. rewrite Nat.sub_0_r. intros Hq'.
  split; [done | congruence].
Qed.

(** ** The quiz creator *)

(** The quiz creator does not save a quiz without questions. *)
Lemma validateQuiz_no_questions (quizData : Quiz) :
  questions quizData = [] →
  newErrors quizData !! "questions" = Some "At least one question is required"
  ∧ validateQuiz quizData = false.
Proof.
  intros H.
  assert (newErrors quizData !! "questions" = Some "At least one question is required") as E.
  { unfold newErrors. rewrite H. simpl. apply lookup_insert_eq. }
  split; [done |].
  unfold validateQuiz. apply bool_decide_eq_false_2.
  intros Hsize. apply map_size_empty_iff in Hsize.
  rewrite Hsize, lookup_empty in E. done.
Qed.

(** It saves the sample quiz, whatever its time limit: the check does
    not look at [timeLimit]. *)
Lemma validateQuiz_sample (limit : number) : validateQuiz (quiz3 limit) = true.
Proof. vm_compute. reflexivity. Qed.

(** What [trim] leaves nothing of: besides the empty text and ASCII
    white space, a no-break space (U+00A0), an ideographic space
    (U+3000) between ASCII spaces, a byte order mark (U+FEFF) and a line
    separator (U+2028); and what it leaves alone: a zero width space
    (U+200B), a next line (U+0085), a letter after a space. *)
Lemma blank_examples :
  blank "" = true
  ∧ blank (utf8 [32; 9; 10; 13]%N) = true
  ∧ blank (utf8 [194; 160]%N) = true
  ∧ blank (utf8 [32; 227; 128; 128; 32]%N) = true
  ∧ blank (utf8 [239; 187; 191]%N) = true
  ∧ blank (utf8 [226; 128; 168]%N) = true
  ∧ blank (utf8 [226; 128; 139]%N) = false
  ∧ blank (utf8 [194; 133]%N) = false
  ∧ blank (utf8 [32; 97]%N) = false.
Proof. vm_compute. done. Qed.

(** ** Controls *)

(** The Submit button is there only on the last question and is enabled
    only when every question has an answer. *)
Lemma submit_button_enabled (quiz : Quiz) (s : State) :
  rendered quiz s SubmitButton && negb (disabled quiz s SubmitButton) = true →
  showResults s = false ∧ onLastQuestion quiz s = true ∧ allQuestionsAnswered quiz s = true.
Proof.
  unfold rendered, disabled. destruct (showResults s).
  - by destruct (summaryCorrect quiz s).
  - destruct (questions quiz !! currentQuestion s); [| done].
    destruct (onLastQuestion quiz s), (allQuestionsAnswered quiz s); done.
Qed.

(** The results view has the Retake button and no other control. *)
Lemma results_view_controls (quiz : Quiz) (s : State) (c : Control) :
  showResults s = true → c ≠ RetakeButton → rendered quiz s c = false.
Proof.
  intros H Hc. unfold rendered. rewrite H.
  destruct (summaryCorrect quiz s); [| done]. by destruct c.
Qed.

(** An option radio is one of the options of the current question, and a
    jump button one of the questions. *)
Lemma rendered_option_in_range (quiz : Quiz) (s : State) (k : nat) :
  rendered quiz s (OptionRadio k) = true →
  ∃ q, questions quiz !! currentQuestion s = Some q ∧ (k < length (options q))%nat.
Proof.
  unfold rendered. destruct (showResults s).
  - by destruct (summaryCorrect quiz s).
  - destruct (questions quiz !! currentQuestion s) as [q |]; [| done].
    intros H. exists q. split; [done |]. by apply bool_decide_eq_true in H.
Qed.

Lemma rendered_jump_in_range (quiz : Quiz) (s : State) (i : nat) :
  rendered quiz s (JumpButton i) = true → (i < length (questions quiz))%nat.
Proof.
  unfold rendered. destruct (showResults s).
  - by destruct (summaryCorrect quiz s).
  - destruct (questions quiz !! currentQuestion s) as [q |]; [| done].
    intros H. by apply bool_decide_eq_true in H.
Qed.

(** ** The answers as a list of values *)

(** Beyond the largest key there is nothing to enumerate. *)
Lemma omap_lookup_seq_beyond (a : gmap nat nat) (b d : nat) :
  (∀ i, is_Some (a !! i) → (i < b)%nat) →
  omap (λ index, a !! index) (seq 0 (b + d)) = omap (λ index, a !! index) (seq 0 b).
Proof.
  intros Hb. rewrite seq_app, omap_app. simpl.
  assert (∀ start, (b ≤ start)%nat → omap (λ index, a !! index) (seq start d) = []) as Hnil.
  { induction d as [| d IH]; intros start Hle; [done |].
    simpl. destruct (a !! start) as [v |] eqn:E.
    - assert (start < b)%nat by (apply Hb; by rewrite E). lia.
    - apply IH. lia. }
  rewrite Hnil by lia. by rewrite app_nil_r.
Qed.

Lemma Object_values_bounded (a : gmap nat nat) (b : nat) :
  (∀ i, is_Some (a !! i) → (i < b)%nat) →
  Object_values a = omap (λ index, a !! index) (seq 0 b).
Proof.
  intros Hb. unfold Object_values.
  set (m := S (max_list (elements (dom a)))).
  assert (∀ i, is_Some (a !! i) → (i < m)%nat) as Hm.
  { intros i Hi. apply elem_of_dom, elem_of_elements, max_list_elem_of_le in Hi.
    unfold m. lia. }
  destruct (Nat.le_gt_cases b m) as [Hle | Hgt].
  - replace m with (b + (m - b))%nat by lia. by apply omap_lookup_seq_beyond.
  - replace b with (m + (b - m))%nat by lia. symmetry. by apply omap_lookup_seq_beyond.
Qed.

Lemma length_omap_lookup (a : gmap nat nat) (l : list nat) :
  (length (omap (λ index, a !! index) l) ≤ length l)%nat.
Proof.
  induction l as [| i l IH]; [done |].
  change (omap (λ index, a !! index) (i :: l))
    with (match a !! i with
          | Some v => v :: omap (λ index, a !! index) l
          | None => omap (λ index, a !! index) l
          end).
  destruct (a !! i); simpl; lia.
Qed.

(** ** Invariants of a session *)

Section Invariants.

Context (quiz : Quiz).

(** *** [showResults] and [quizCompleted] are set and reset together *)

Lemma timerEffect_flags (w : World) :
  showResults (session w) = quizCompleted (session w) →
  showResults (session (timerEffect quiz w)) = quizCompleted (session (timerEffect quiz w)).
Proof. intros H. effect_cases. Qed.

Lemma step_flags (w : World) (op : Op) :
  showResults (session w) = quizCompleted (session w) →
  showResults (session (step quiz w op)) = quizCompleted (session (step quiz w op)).
Proof.
  intros H. destruct op; simpl; try done.
  - handler_cases.
  - handler_cases.
  - unfold tick. destruct (timerPending (session w)); [| done].
    by apply timerEffect_flags.
  - by apply timerEffect_flags.
  - by apply timerEffect_flags.
Qed.

Lemma fire_flags (w : World) (e : Event) :
  showResults (session w) = quizCompleted (session w) →
  showResults (session (fire quiz w e)) = quizCompleted (session (fire quiz w e)).
Proof.
  intros H. destruct e as [c |]; simpl.
  - unfold click. destruct (rendered _ _ _ && negb _); [| done].
    by apply step_flags.
  - by apply (step_flags w Tick).
Qed.

Lemma play_flags (events : list Event) :
  ∀ w, showResults (session w) = quizCompleted (session w) →
       showResults (session (play quiz events w))
       = quizCompleted (session (play quiz events w)).
Proof.
  induction events as [| e events IH]; intros w H; [done |].
  simpl. apply IH. by apply fire_flags.
Qed.

Lemma mount_flags :
  showResults (session (mount quiz)) = quizCompleted (session (mount quiz)).
Proof. unfold mount. by apply timerEffect_flags. Qed.

(** *** The keys of [answers] stay in range *)

Lemma timerEffect_answers (w : World) :
  answers (session (timerEffect quiz w)) = answers (session w).
Proof. effect_cases. Qed.

Lemma fire_keysInRange (w : World) (e : Event) :
  keysInRange quiz (session w) → keysInRange quiz (session (fire quiz w e)).
Proof.
  intros H. destruct e as [c |]; simpl.
  - unfold click.
    destruct (rendered quiz (session w) c && negb (disabled quiz (session w) c)) eqn:E;
      [| done].
    apply andb_true_iff in E as [Hr _].
    destruct c as [k | | i | | |]; simpl.
    + intros index. simpl.
      destruct (decide (index = currentQuestion (session w))) as [-> | Hne].
      * intros _. apply rendered_option_in_range in Hr as (q & Hq & _).
        by apply lookup_lt_Some in Hq.
      * rewrite lookup_insert_ne by done. apply H.
    + handler_cases.
    + done.
    + handler_cases.
    + unfold keysInRange. rewrite timerEffect_answers. apply H.
    + unfold keysInRange. rewrite timerEffect_answers. simpl.
      intros index [v Hv]. by rewrite lookup_empty in Hv.
  - unfold tick. destruct (timerPending (session w)); [| done].
    unfold keysInRange. rewrite timerEffect_answers. apply H.
Qed.

Lemma play_keysInRange (events : list Event) :
  ∀ w, keysInRange quiz (session w) → keysInRange quiz (session (play quiz events w)).
Proof.
  induction events as [| e events IH]; intros w H; [done |].
  simpl. apply IH. by apply fire_keysInRange.
Qed.

Lemma mount_keysInRange : keysInRange quiz (session (mount quiz)).
Proof.
  unfold keysInRange, mount. rewrite timerEffect_answers. simpl.
  intros index [v Hv]. by rewrite lookup_empty in Hv.
Qed.

(** *** The summary count *)

(** On a run of answered questions the filter of the summary counts
    what the loop of [calculateScore] counts. *)
Lemma filterCorrect_answered (a : gmap nat nat) (qs : list Question) :
  ∀ index,
    (∀ j, (j < length qs)%nat → is_Some (a !! (index + j)%nat)) →
    (∀ j q, qs !! j = Some q → questions quiz !! (index + j)%nat = Some q) →
    filterCorrect quiz index (omap (λ i, a !! i) (seq index (length qs)))
    = Some (countCorrect a index qs).
Proof.
  induction qs as [| q rest IH]; intros index Hans Hqs; [done |].
  simpl.
  destruct (Hans 0%nat) as [v Hv]; [simpl; lia |].
  rewrite Nat.add_0_r in Hv. rewrite Hv. simpl.
  pose proof (Hqs 0%nat q eq_refl) as Hq. rewrite Nat.add_0_r in Hq. rewrite Hq.
  rewrite IH.
  - f_equal. f_equal. unfold isCorrect. rewrite Hv.
    destruct (decide (v = correctAnswer q)) as [-> | Hne].
    + by rewrite !bool_decide_eq_true_2.
    + rewrite !bool_decide_eq_false_2; [done | congruence | done].
  - intros j Hj. replace (S index + j)%nat with (index + S j)%nat by lia.
    apply Hans. simpl. lia.
  - intros j q' Hj. replace (S index + j)%nat with (index + S j)%nat by lia.
    by apply Hqs.
Qed.

Lemma allQuestionsAnswered_lookup (s : State) (index : nat) :
  allQuestionsAnswered quiz s = true →
  (index < length (questions quiz))%nat →
  is_Some (answers s !! index).
Proof.
  unfold allQuestionsAnswered. rewrite forallb_forall. intros H Hlt.
  specialize (H index). unfold hasOwnProperty in H.
  eapply bool_decide_eq_true_1, H. apply in_seq. lia.
Qed.

(** With every question answered and no other key in [answers], the
    summary shows the count of [calculateScore]. *)
Lemma summaryCorrect_all_answered (s : State) :
  allQuestionsAnswered quiz s = true →
  keysInRange quiz s →
  summaryCorrect quiz s = Some (countCorrect (answers s) 0 (questions quiz)).
Proof.
  intros Hall Hkeys. unfold summaryCorrect.
  rewrite (Object_values_bounded _ (length (questions quiz))) by done.
  apply (filterCorrect_answered (answers s) (questions quiz) 0).
  - intros j Hj. by apply allQuestionsAnswered_lookup.
  - intros j q Hq. done.
Qed.

Lemma filterCorrect_total (values : list nat) :
  ∀ index, (index + length values ≤ length (questions quiz))%nat →
           is_Some (filterCorrect quiz index values).
Proof.
  induction values as [| v values IH]; intros index H; [by eexists |].
  simpl in *.
  destruct (lookup_lt_is_Some_2 (questions quiz) index) as [q ->]; [lia |].
  destruct (IH (S index)) as [n ->]; [lia |]. by eexists.
Qed.

Lemma summaryCorrect_total (s : State) :
  keysInRange quiz s → is_Some (summaryCorrect quiz s).
Proof.
  intros H. unfold summaryCorrect.
  rewrite (Object_values_bounded _ (length (questions quiz))) by done.
  apply filterCorrect_total. simpl.
  pose proof (length_omap_lookup (answers s) (seq 0 (length (questions quiz)))) as Hlen.
  rewrite length_seq in Hlen. done.
Qed.

(** *** Rendering never throws *)

Lemma timerEffect_currentQuestion (w : World) :
  currentQuestion (session (timerEffect quiz w)) = currentQuestion (session w).
Proof. effect_cases. Qed.

Section NonEmpty.

Hypothesis nonempty : questions quiz ≠ [].

Lemma fire_currentInRange (w : World) (e : Event) :
  currentInRange quiz (session w) → currentInRange quiz (session (fire quiz w e)).
Proof.
  intros H. unfold currentInRange in *. destruct e as [c |]; simpl.
  - unfold click.
    destruct (rendered quiz (session w) c && negb (disabled quiz (session w) c)) eqn:E;
      [| done].
    apply andb_true_iff in E as [Hr _].
    destruct c as [k | | i | | |]; simpl.
    + done.
    + unfold handlePrevious. destruct (0 <? _); simpl; lia.
    + by apply rendered_jump_in_range in Hr.
    + unfold handleNext.
      destruct (Z.ltb_spec (Z.of_nat (currentQuestion (session w)))
                           (Z.of_nat (length (questions quiz)) - 1)); simpl; lia.
    + by rewrite timerEffect_currentQuestion.
    + rewrite timerEffect_currentQuestion. simpl.
      destruct (questions quiz); [done | simpl; lia].
  - unfold tick. destruct (timerPending (session w)); [| done].
    by rewrite timerEffect_currentQuestion.
Qed.

Lemma play_currentInRange (events : list Event) :
  ∀ w, currentInRange quiz (session w) → currentInRange quiz (session (play quiz events w)).
Proof.
  induction events as [| e events IH]; intros w H; [done |].
  simpl. apply IH. by apply fire_currentInRange.
Qed.

Lemma mount_currentInRange : currentInRange quiz (session (mount quiz)).
Proof.
  unfold currentInRange, mount. rewrite timerEffect_currentQuestion. simpl.
  destruct (questions quiz); [done | simpl; lia].
Qed.

(** For a quiz with at least one question every state the component
    gets into can be rendered. *)
Lemma play_renders (events : list Event) :
  renders quiz (session (play quiz events (mount quiz))) = true.
Proof.
  unfold renders.
  destruct (showResults _).
  - apply bool_decide_eq_true_2, summaryCorrect_total.
    apply play_keysInRange, mount_keysInRange.
  - apply bool_decide_eq_true_2, lookup_lt_is_Some_2.
    apply play_currentInRange, mount_currentInRange.
Qed.

End NonEmpty.

End Invariants.

(** ** Properties of the session *)

(** C1, evaluated at a three-question quiz with [timeLimit = 0], which
    the quiz creator saves like any other: the header shows no clock,
    yet the effect that runs on mount finds [timeRemaining === 0] and
    submits.  Before any second has passed and without any click the
    session is Submitted, with no answers and score 0, and that result
    has gone to [onComplete]. *)
Theorem C1_zero_limit_submitted_on_mount :
  validateQuiz (quiz3 (Int 0)) = true
  ∧ clockShown (quiz3 (Int 0)) = false
  ∧ status (session (mount (quiz3 (Int 0)))) = Submitted
  ∧ answers (session (mount (quiz3 (Int 0)))) = ∅
  ∧ score (session (mount (quiz3 (Int 0)))) = Int 0
  ∧ delivered (mount (quiz3 (Int 0)))
    = [ {| result_answers := ∅; result_score := Int 0; result_timeSpent := Int 0 |} ].
Proof.
  split; [apply validateQuiz_sample |].
  rewrite mount_zero_limit by done. vm_compute. done.
Qed.

(** C2: submission is not held back by unanswered questions.  On a
    session in progress in which some question has no answer, a call of
    [handleSubmitQuiz] (in the component: the [Submit] operation, which
    the timer makes when the last second passes, whatever has been
    answered) sets the status to Submitted, keeps the answers as they
    are, and stores and delivers the score of those answers.  In that
    score a question without an answer is not counted as correct, and
    the score is the same as if the question had been answered wrongly.
    Holding a submission back until the answers are complete is left to
    the caller's side, the rendered Submit button, which is disabled
    until then. *)
Theorem C2_submission_not_blocked (quiz : Quiz) (w : World) :
  status (session w) = InProgress →
  allQuestionsAnswered quiz (session w) = false →
  status (session (step quiz w Submit)) = Submitted
  ∧ answers (session (step quiz w Submit)) = answers (session w)
  ∧ score (session (step quiz w Submit)) = calculateScore quiz (answers (session w))
  ∧ delivered (step quiz w Submit)
    = delivered w ++ [(handleSubmitQuiz quiz (session w)).2]
  ∧ status (handleSubmitQuiz quiz (session w)).1 = Submitted
  ∧ answers (handleSubmitQuiz quiz (session w)).1 = answers (session w)
  ∧ score (handleSubmitQuiz quiz (session w)).1 = calculateScore quiz (answers (session w))
  ∧ result_answers (handleSubmitQuiz quiz (session w)).2 = answers (session w)
  ∧ result_score (handleSubmitQuiz quiz (session w)).2
    = calculateScore quiz (answers (session w))
  ∧ (timeRemaining (session w) = Int 1 →
     status (session (tick quiz w)) = Submitted
     ∧ answers (session (tick quiz w)) = answers (session w)
     ∧ score (session (tick quiz w)) = calculateScore quiz (answers (session w)))
  ∧ (∀ index q, questions quiz !! index = Some q → answers (session w) !! index = None →
       isCorrect (answers (session w)) index q = false)
  ∧ (∀ index q wrong, questions quiz !! index = Some q →
       answers (session w) !! index = None → wrong ≠ correctAnswer q →
       calculateScore quiz (<[index := wrong]> (answers (session w)))
       = calculateScore quiz (answers (session w)))
  ∧ click quiz SubmitButton w = w.
Proof.
  intros Hs Hall. apply status_InProgress in Hs.
  assert (step quiz w Submit = submit quiz w) as ->.
  { simpl. by apply timerEffect_completed. }
  repeat split.
  - apply status_Submitted. by rewrite tick_expires.
  - by rewrite tick_expires.
  - by rewrite tick_expires.
  - intros index q _ Hnone. unfold isCorrect. rewrite Hnone.
    by apply bool_decide_eq_false_2.
  - intros index q wrong. apply calculateScore_insert_wrong.
  - unfold click. simpl. rewrite Hall. simpl. by rewrite andb_false_r.
Qed.

Lemma C2_submission_not_blocked_witness :
  status (session partial3) = InProgress
  ∧ allQuestionsAnswered (quiz3 (Int 10)) (session partial3) = false
  ∧ status (session (step (quiz3 (Int 10)) partial3 Submit)) = Submitted
  ∧ score (session (step (quiz3 (Int 10)) partial3 Submit)) = Int 33.
Proof.
  split; [reflexivity |]. split; [reflexivity |].
  destruct (C2_submission_not_blocked (quiz3 (Int 10)) partial3)
    as (H1 & _ & H3 & _); [reflexivity | reflexivity |].
  split; [exact H1 |]. rewrite H3. reflexivity.
Defined.

(** C3 fails as stated: on a three-question session in progress,
    [setCurrentQuestion 4] moves to index 4 and [handleAnswerSelect 4 9]
    records an answer under key 4. *)
Lemma C3_counterexample :
  status (session (mount (quiz3 (Int 10)))) = InProgress
  ∧ length (questions (quiz3 (Int 10))) = 3%nat
  ∧ currentQuestion (session (mount (quiz3 (Int 10)))) = 0%nat
  ∧ currentQuestion (setCurrentQuestion 4 (session (mount (quiz3 (Int 10))))) = 4%nat
  ∧ answers (session (mount (quiz3 (Int 10)))) !! 4%nat = None
  ∧ answers (handleAnswerSelect 4 9 (session (mount (quiz3 (Int 10))))) !! 4%nat = Some 9%nat.
Proof. vm_compute. done. Qed.

(** C3, amended: the two handlers check no range and signal nothing.
    For every index and option, in range or not, [handleAnswerSelect]
    records the option under the index and [setCurrentQuestion] moves to
    the index, and neither touches the timer or the status.  Indices stay
    in range only because of what is rendered: an option radio exists
    only for an option of the current question, a jump button only for an
    existing question. *)
Theorem C3_handlers_do_not_validate (quiz : Quiz) (s : State) (i k : nat) :
  answers (handleAnswerSelect i k s) !! i = Some k
  ∧ currentQuestion (setCurrentQuestion i s) = i
  ∧ timeRemaining (handleAnswerSelect i k s) = timeRemaining s
  ∧ status (handleAnswerSelect i k s) = status s
  ∧ timeRemaining (setCurrentQuestion i s) = timeRemaining s
  ∧ status (setCurrentQuestion i s) = status s
  ∧ (rendered quiz s (OptionRadio k) = true →
     ∃ q, questions quiz !! currentQuestion s = Some q ∧ (k < length (options q))%nat)
  ∧ (rendered quiz s (JumpButton i) = true → (i < length (questions quiz))%nat).
Proof.
  repeat split; try done.
  - simpl. apply lookup_insert_eq.
  - apply rendered_option_in_range.
  - apply rendered_jump_in_range.
Qed.

(** C4: a quiz without questions is rejected when the component is
    started, and nothing ever operates on one.  Starting the component
    fails exactly for the quiz without questions: its first render
    throws (the condition is the [TypeError] raised on reading
    [quiz.questions[0].question]), none of its controls exists, and the
    quiz creator does not save such a quiz either.  A component that
    did start has at least one question, and every state it gets into,
    whatever is clicked and however many seconds pass, is rendered; so
    every handler, the timer effect and the score computation run on a
    quiz with at least one question only. *)
Theorem C4_empty_quiz_rejected (quiz : Quiz) :
  (start quiz = None ↔ questions quiz = [])
  ∧ (questions quiz = [] →
     renders quiz (initialState quiz) = false
     ∧ (∀ c, rendered quiz (initialState quiz) c = false)
     ∧ validateQuiz quiz = false)
  ∧ (∀ w, start quiz = Some w →
     w = mount quiz
     ∧ (1 ≤ length (questions quiz))%nat
     ∧ ∀ events, renders quiz (session (play quiz events w)) = true).
Proof.
  assert (renders quiz (initialState quiz) = false ↔ questions quiz = []) as Hr.
  { unfold renders. simpl. destruct (questions quiz) as [| q qs]; by split. }
  split; [| split].
  - unfold start. rewrite <- Hr. by destruct (renders quiz (initialState quiz)).
  - intros H. split; [by apply Hr |]. split.
    + intros c. unfold rendered. simpl. by rewrite H.
    + by apply validateQuiz_no_questions.
  - intros w. unfold start.
    destruct (renders quiz (initialState quiz)) eqn:E; [| done].
    intros [= <-]. split; [done |].
    assert (questions quiz ≠ []) as Hne.
    { intros H. apply Hr in H. congruence. }
    split.
    + destruct (questions quiz); [done | simpl; lia].
    + intros events. by apply play_renders.
Qed.

Lemma C4_empty_quiz_rejected_witness :
  start emptyQuiz = None
  ∧ start (quiz3 (Int 10)) = Some (mount (quiz3 (Int 10))).
Proof.
  split.
  - apply (proj1 (C4_empty_quiz_rejected emptyQuiz)). reflexivity.
  - reflexivity.
Defined.

(** C5, evaluated at a forty-question session with 23 correct answers:
    the exact percentage is 115/2 = 57.5, which rounds to 58, but
    submitting gives score 57, because the double [(23 / 40) * 100] lies
    just below 57.5. *)
Theorem C5_score_23_of_40 :
  length (questions quiz40) = 40%nat
  ∧ countCorrect (answers session23of40) 0 (questions quiz40) = 23%nat
  ∧ 2 * (100 * 23) = 115 * 40
  ∧ roundedPercentage 23 40 = 58
  ∧ score (handleSubmitQuiz quiz40 session23of40).1 = Int 57
  ∧ result_score (handleSubmitQuiz quiz40 session23of40).2 = Int 57.
Proof. vm_compute. done. Qed.

(** C6: a quiz with [timeLimit = 1] starts with 60 seconds.  Whatever the
    respondent clicks short of Submit and Retake, while fewer than 60
    seconds have passed the session is in progress and the timer shows
    what is left; when 59 have passed, the next second submits the
    session with the answers recorded by then, scored as they are, and
    delivers that result; and any number of further seconds change
    nothing. *)
Theorem C6_one_minute_limit (quiz : Quiz) (events : list Event) :
  questions quiz ≠ [] →
  timeLimit quiz = Int 1 →
  forallb keepsGoing events = true →
  ((seconds events < 60)%nat →
     status (session (play quiz events (mount quiz))) = InProgress
     ∧ timeRemaining (session (play quiz events (mount quiz)))
       = Int (60 - Z.of_nat (seconds events)))
  ∧ (seconds events = 59%nat →
     status (session (tick quiz (play quiz events (mount quiz)))) = Submitted
     ∧ answers (session (tick quiz (play quiz events (mount quiz))))
       = answers (session (play quiz events (mount quiz)))
     ∧ score (session (tick quiz (play quiz events (mount quiz))))
       = calculateScore quiz (answers (session (play quiz events (mount quiz))))
     ∧ delivered (tick quiz (play quiz events (mount quiz)))
       = [ {| result_answers := answers (session (play quiz events (mount quiz)));
              result_score := calculateScore quiz (answers (session (play quiz events (mount quiz))));
              result_timeSpent := Int 60 |} ]
     ∧ ∀ n, Nat.iter n (tick quiz) (tick quiz (play quiz events (mount quiz)))
            = tick quiz (play quiz events (mount quiz))).
Proof.
  intros _ Hlimit Hk.
  rewrite (mount_timed quiz 1 Hlimit) by lia.
  set (w0 := {| session := initialState quiz; delivered := [] |}).
  assert (timeRemaining (session w0) = Int 60) as H60 by (simpl; by rewrite Hlimit).
  assert (∀ k : nat, seconds events = k → (k < 60)%nat →
    timeRemaining (session (play quiz events w0)) = Int (60 - Z.of_nat k)
    ∧ quizCompleted (session (play quiz events w0)) = false
    ∧ delivered (play quiz events w0) = []) as Hrun.
  { intros k <- Hlt. apply (play_counts_down quiz events w0 60); [done | done | done | lia]. }
  split.
  - intros Hlt. destruct (Hrun _ eq_refl Hlt) as (Ht & Hc & _).
    split; [by apply status_InProgress | done].
  - intros H59. destruct (Hrun 59%nat H59) as (Ht & Hc & Hd); [lia |].
    set (w := play quiz events w0) in *.
    assert (tick quiz w = submit quiz (onSession decrement w)) as Etick
      by (by apply tick_expires).
    assert (quizCompleted (session (tick quiz w)) = true) as Hdone
      by (by rewrite Etick).
    split; [by apply status_Submitted |].
    repeat split; try (by rewrite Etick).
    + rewrite Etick. unfold submit. simpl. rewrite Hd, Ht, Hlimit. done.
    + intros n. induction n as [| n IHn]; [done |].
      simpl. rewrite IHn. by apply tick_completed.
Qed.

Lemma C6_one_minute_limit_witness :
  questions (quiz3 (Int 1)) ≠ []
  ∧ timeLimit (quiz3 (Int 1)) = Int 1
  ∧ forallb keepsGoing (Click (OptionRadio 1) :: replicate 59 Second) = true
  ∧ seconds (Click (OptionRadio 1) :: replicate 59 Second) = 59%nat
  ∧ status (session (play (quiz3 (Int 1)) (Click (OptionRadio 1) :: replicate 59 Second)
                          (mount (quiz3 (Int 1))))) = InProgress
  ∧ status (session (tick (quiz3 (Int 1))
                      (play (quiz3 (Int 1)) (Click (OptionRadio 1) :: replicate 59 Second)
                            (mount (quiz3 (Int 1)))))) = Submitted.
Proof.
  split; [discriminate |].
  split; [reflexivity |]. split; [reflexivity |]. split; [reflexivity |].
  destruct (C6_one_minute_limit (quiz3 (Int 1)) (Click (OptionRadio 1) :: replicate 59 Second))
    as [H1 H2]; [discriminate | reflexivity | reflexivity |].
  split.
  - apply H1. simpl. lia.
  - apply H2. reflexivity.
Defined.

(** C7: a submitted session is terminal.  In every session the
    component gets into from mounting, once the status is Submitted the
    results view is what is rendered: it has no option radio and no
    Previous, Next, jump or Submit button, so that selecting an answer,
    going to a question, next and previous change nothing, and a second
    that passes changes nothing either: the answers, the current
    question and the score stay as they are.  Besides, no handler among
    them writes the score in any state. *)
Theorem C7_terminal_through_results_view (quiz : Quiz) (events : list Event) (c : Control) :
  questions quiz ≠ [] →
  status (session (play quiz events (mount quiz))) = Submitted →
  c ≠ RetakeButton →
  rendered quiz (session (play quiz events (mount quiz))) c = false
  ∧ click quiz c (play quiz events (mount quiz)) = play quiz events (mount quiz)
  ∧ tick quiz (play quiz events (mount quiz)) = play quiz events (mount quiz)
  ∧ (∀ s i k, score (handleAnswerSelect i k s) = score s)
  ∧ (∀ s i, score (setCurrentQuestion i s) = score s)
  ∧ (∀ s, score (handleNext quiz s) = score s)
  ∧ (∀ s, score (handlePrevious s) = score s).
Proof.
  intros _ Hs Hc. apply status_Submitted in Hs.
  pose proof (play_flags quiz events (mount quiz) (mount_flags quiz)) as Hflags.
  rewrite Hs in Hflags.
  pose proof (results_view_controls quiz _ c Hflags Hc) as Hr.
  repeat split; try done.
  - unfold click. by rewrite Hr.
  - by apply tick_completed.
  - intros s. handler_cases.
  - intros s. handler_cases.
Qed.

Lemma C7_terminal_through_results_view_witness :
  questions (quiz3 (Int 10)) ≠ []
  ∧ status (session submitted3) = Submitted
  ∧ OptionRadio 2 ≠ RetakeButton
  ∧ rendered (quiz3 (Int 10)) (session submitted3) (OptionRadio 2) = false
  ∧ click (quiz3 (Int 10)) (OptionRadio 2) submitted3 = submitted3
  ∧ tick (quiz3 (Int 10)) submitted3 = submitted3.
Proof.
  split; [discriminate |]. split; [reflexivity |]. split; [discriminate |].
  destruct (C7_terminal_through_results_view (quiz3 (Int 10))
              (answering3 ++ [Click SubmitButton]) (OptionRadio 2))
    as (H1 & H2 & H3 & _); [discriminate | reflexivity | discriminate |].
  split; [exact H1 |]. split; [exact H2 | exact H3].
Defined.



(** C9: [handleAnswerSelect i k] changes the entry of [answers] under
    [i] and nothing else: every other entry, present or absent, the
    current question, the timer, the status and the score stay. *)
Theorem C9_select_answer_frame (s : State) (i k : nat) :
  answers (handleAnswerSelect i k s) !! i = Some k
  ∧ (∀ j, j ≠ i → answers (handleAnswerSelect i k s) !! j = answers s !! j)
  ∧ currentQuestion (handleAnswerSelect i k s) = currentQuestion s
  ∧ timeRemaining (handleAnswerSelect i k s) = timeRemaining s
  ∧ status (handleAnswerSelect i k s) = status s
  ∧ score (handleAnswerSelect i k s) = score s.
Proof.
  repeat split; simpl.
  - apply lookup_insert_eq.
  - intros j Hj. by apply lookup_insert_ne.
Qed.

(** C10: in every session the component gets into in which all
    questions are answered, the correct-answer count of the results
    summary is the count [calculateScore] uses; and there is a session,
    submitted by the timer with only the last question answered, in
    which the summary shows 0 where [calculateScore] counts 1. *)
Theorem C10_summary_count :
  (∀ (quiz : Quiz) (events : list Event),
     questions quiz ≠ [] →
     allQuestionsAnswered quiz (session (play quiz events (mount quiz))) = true →
     summaryCorrect quiz (session (play quiz events (mount quiz)))
     = Some (countCorrect (answers (session (play quiz events (mount quiz)))) 0
                          (questions quiz)))
  ∧ (status lastOnly3 = Submitted
     ∧ allQuestionsAnswered (quiz3 (Int 1)) lastOnly3 = false
     ∧ summaryCorrect (quiz3 (Int 1)) lastOnly3 = Some 0%nat
     ∧ countCorrect (answers lastOnly3) 0 (questions (quiz3 (Int 1))) = 1%nat).
Proof.
  split.
  - intros quiz events _ Hall. apply summaryCorrect_all_answered; [done |].
    apply play_keysInRange, mount_keysInRange.
  - vm_compute. done.
Qed.

Lemma C10_summary_count_witness :
  questions (quiz3 (Int 10)) ≠ []
  ∧ allQuestionsAnswered (quiz3 (Int 10)) (session submitted3) = true
  ∧ summaryCorrect (quiz3 (Int 10)) (session submitted3) = Some 2%nat.
Proof.
  split; [discriminate |]. split; [reflexivity |].
  etrans.
  - apply (proj1 C10_summary_count (quiz3 (Int 10)) (answering3 ++ [Click SubmitButton]));
      [discriminate | reflexivity].
  - reflexivity.
Defined.

(** * Further properties *)

(** ** Answering and moving between questions *)

Lemma State_eq (s t : State) :
  currentQuestion s = currentQuestion t → answers s = answers t →
  timeRemaining s = timeRemaining t → quizCompleted s = quizCompleted t →
  showResults s = showResults t → score s = score t → s = t.
Proof. destruct s, t; simpl; intros; by subst. Qed.

(** X1: Of several answers to one question the last one is the one
    recorded, and the state is as if it alone had been given; answering
    twice the same is answering once; and answers to different questions
    are both recorded and do not depend on their order. *)
Theorem answers_last_write_wins (s : State) (i j k k' m : nat) :
  answers (handleAnswerSelect i k (handleAnswerSelect i k' s)) !! i = Some k
  ∧ handleAnswerSelect i k (handleAnswerSelect i k' s) = handleAnswerSelect i k s
  ∧ handleAnswerSelect i k (handleAnswerSelect i k s) = handleAnswerSelect i k s
  ∧ (i ≠ j →
     answers (handleAnswerSelect i k (handleAnswerSelect j m s)) !! i = Some k
     ∧ answers (handleAnswerSelect i k (handleAnswerSelect j m s)) !! j = Some m
     ∧ handleAnswerSelect i k (handleAnswerSelect j m s)
       = handleAnswerSelect j m (handleAnswerSelect i k s)).
Proof.
  split; [simpl; apply lookup_insert_eq |].
  split; [apply State_eq; simpl; try done; apply insert_insert_eq |].
  split; [apply State_eq; simpl; try done; apply insert_insert_eq |].
  intros Hij. split; [simpl; apply lookup_insert_eq |]. split.
  - simpl. rewrite lookup_insert_ne by done. apply lookup_insert_eq.
  - apply State_eq; simpl; try done. by apply insert_insert_ne.
Qed.

(** X2: [handleNext] and [handlePrevious] keep the current question inside
    the quiz, stop at its two ends, and undo each other wherever they
    move. *)
Theorem navigation_clamped (quiz : Quiz) (s : State) :
  currentInRange quiz s →
  currentInRange quiz (handleNext quiz s)
  ∧ currentInRange quiz (handlePrevious s)
  ∧ (onLastQuestion quiz s = true → handleNext quiz s = s)
  ∧ (currentQuestion s = 0%nat → handlePrevious s = s)
  ∧ (onLastQuestion quiz s = false →
     currentQuestion (handleNext quiz s) = S (currentQuestion s)
     ∧ handlePrevious (handleNext quiz s) = s)
  ∧ (currentQuestion s ≠ 0%nat →
     S (currentQuestion (handlePrevious s)) = currentQuestion s
     ∧ handleNext quiz (handlePrevious s) = s).
Proof.
  unfold currentInRange, onLastQuestion, handleNext, handlePrevious. intros Hr.
  repeat split.
  - destruct (Z.ltb_spec (Z.of_nat (currentQuestion s))
                         (Z.of_nat (length (questions quiz)) - 1)); simpl; lia.
  - destruct (0 <? _); simpl; lia.
  - intros H. apply Z.eqb_eq in H.
    destruct (Z.ltb_spec (Z.of_nat (currentQuestion s))
                         (Z.of_nat (length (questions quiz)) - 1)); [lia | done].
  - intros ->. done.
  - apply Z.eqb_neq in H.
    destruct (Z.ltb_spec (Z.of_nat (currentQuestion s))
                         (Z.of_nat (length (questions quiz)) - 1)); [done | lia].
  - apply Z.eqb_neq in H.
    destruct (Z.ltb_spec (Z.of_nat (currentQuestion s))
                         (Z.of_nat (length (questions quiz)) - 1)); [| lia].
    simpl. destruct (Z.ltb_spec 0 (Z.of_nat (S (currentQuestion s)))); [| lia].
    by apply State_eq.
  - destruct (Z.ltb_spec 0 (Z.of_nat (currentQuestion s))); [| lia].
    simpl. lia.
  - destruct (Z.ltb_spec 0 (Z.of_nat (currentQuestion s))); [| lia].
    simpl.
    destruct (Z.ltb_spec (Z.of_nat (pred (currentQuestion s)))
                         (Z.of_nat (length (questions quiz)) - 1)); [| lia].
    apply State_eq; simpl; try done. lia.
Qed.

Lemma navigation_clamped_witness :
  currentInRange (quiz3 (Int 10)) (session partial3)
  ∧ handleNext (quiz3 (Int 10)) (session partial3) = session partial3
  ∧ currentQuestion (handlePrevious (session partial3)) = 1%nat.
Proof.
  assert (currentInRange (quiz3 (Int 10)) (session partial3)) as Hr
    by (vm_compute; lia).
  split; [exact Hr |].
  destruct (navigation_clamped (quiz3 (Int 10)) (session partial3) Hr)
    as (_ & _ & H3 & _ & _ & H6).
  split; [apply H3; reflexivity |].
  destruct H6 as [H6 _]; [discriminate |].
  apply (inj S). exact H6.
Defined.

(** ** The Submit and Next buttons *)

Lemma allQuestionsAnswered_iff (quiz : Quiz) (s : State) :
  allQuestionsAnswered quiz s = true
  ↔ ∀ index, (index < length (questions quiz))%nat → is_Some (answers s !! index).
Proof.
  split.
  - intros H index Hlt. by apply (allQuestionsAnswered_lookup quiz).
  - intros H. unfold allQuestionsAnswered. apply forallb_forall.
    intros index Hin. apply in_seq in Hin.
    apply bool_decide_eq_true_2, H. lia.
Qed.

(** X3: All questions are answered exactly when every question index has an
    entry in [answers]; selecting an answer never undoes that, and it
    brings it about when the question answered was the only one left. *)
Theorem allQuestionsAnswered_complete (quiz : Quiz) (s : State) (i k : nat) :
  (allQuestionsAnswered quiz s = true
   ↔ ∀ index, (index < length (questions quiz))%nat → is_Some (answers s !! index))
  ∧ (allQuestionsAnswered quiz s = true →
     allQuestionsAnswered quiz (handleAnswerSelect i k s) = true)
  ∧ ((∀ index, (index < length (questions quiz))%nat → index ≠ i →
        is_Some (answers s !! index)) →
     allQuestionsAnswered quiz (handleAnswerSelect i k s) = true).
Proof.
  split; [apply allQuestionsAnswered_iff |]. split.
  - rewrite !allQuestionsAnswered_iff. intros H index Hlt. simpl.
    destruct (decide (i = index)) as [-> | Hne].
    + rewrite lookup_insert_eq. by eexists.
    + rewrite lookup_insert_ne by done. by apply H.
  - intros H. apply allQuestionsAnswered_iff. intros index Hlt. simpl.
    destruct (decide (i = index)) as [-> | Hne].
    + rewrite lookup_insert_eq. by eexists.
    + rewrite lookup_insert_ne by done. apply H; [done | congruence].
Qed.

(** X4: A click on Submit reaches [handleSubmitQuiz] exactly when the quiz
    view is shown, the current question is the last one and every
    question is answered; the session is then Submitted with the score
    of its answers, and one more result has been delivered.  In every
    other case the click changes nothing. *)
Theorem submit_click_when_complete (quiz : Quiz) (w : World) :
  (rendered quiz (session w) SubmitButton && negb (disabled quiz (session w) SubmitButton) = true
   ↔ showResults (session w) = false
     ∧ S (currentQuestion (session w)) = length (questions quiz)
     ∧ allQuestionsAnswered quiz (session w) = true)
  ∧ (rendered quiz (session w) SubmitButton && negb (disabled quiz (session w) SubmitButton) = true →
     click quiz SubmitButton w = submit quiz w
     ∧ status (session (click quiz SubmitButton w)) = Submitted
     ∧ answers (session (click quiz SubmitButton w)) = answers (session w)
     ∧ score (session (click quiz SubmitButton w)) = calculateScore quiz (answers (session w))
     ∧ length (delivered (click quiz SubmitButton w)) = S (length (delivered w)))
  ∧ (rendered quiz (session w) SubmitButton && negb (disabled quiz (session w) SubmitButton) = false →
     click quiz SubmitButton w = w).
Proof.
  split; [| split].
  - unfold rendered, disabled, onLastQuestion. split.
    + destruct (showResults (session w)).
      { by destruct (summaryCorrect quiz (session w)). }
      destruct (questions quiz !! currentQuestion (session w)); [| done].
      intros H. apply andb_true_iff in H as [H1 H2].
      apply Z.eqb_eq in H1. apply negb_true_iff, negb_false_iff in H2.
      repeat split; [lia | done].
    + intros (Hs & Hlast & Hall). rewrite Hs, Hall.
      destruct (lookup_lt_is_Some_2 (questions quiz) (currentQuestion (session w)))
        as [q ->]; [lia |].
      simpl. rewrite andb_true_r. apply Z.eqb_eq. lia.
  - intros H. unfold click. rewrite H.
    assert (step quiz w (handler (session w) SubmitButton) = submit quiz w) as ->.
    { simpl. by apply timerEffect_completed. }
    repeat split. unfold submit. simpl. rewrite length_app. simpl. lia.
  - intros H. unfold click. by rewrite H.
Qed.

(** X5: Next moves on only from an answered question that is not the last;
    a jump button moves to its question whether or not anything is
    answered. *)
Theorem next_needs_answer_jump_does_not (quiz : Quiz) (w : World) (i : nat) :
  showResults (session w) = false →
  currentInRange quiz (session w) →
  (click quiz NextButton w ≠ w
   ↔ onLastQuestion quiz (session w) = false
     ∧ is_Some (answers (session w) !! currentQuestion (session w)))
  ∧ (click quiz NextButton w ≠ w →
     currentQuestion (session (click quiz NextButton w)) = S (currentQuestion (session w)))
  ∧ ((i < length (questions quiz))%nat →
     click quiz (JumpButton i) w = onSession (setCurrentQuestion i) w)
  ∧ ((length (questions quiz) ≤ i)%nat → click quiz (JumpButton i) w = w).
Proof.
  intros Hs Hr.
  destruct (lookup_lt_is_Some_2 (questions quiz) (currentQuestion (session w))) as [q Hq];
    [done |].
  assert (click quiz NextButton w
          = if negb (onLastQuestion quiz (session w))
               && hasOwnProperty (answers (session w)) (currentQuestion (session w))
            then onSession (handleNext quiz) w else w) as Hclick.
  { unfold click, rendered, disabled. rewrite Hs, Hq. by rewrite negb_involutive. }
  assert (onLastQuestion quiz (session w) = false →
          currentQuestion (handleNext quiz (session w)) = S (currentQuestion (session w)))
    as Hmove.
  { intros H. unfold handleNext, onLastQuestion in *. apply Z.eqb_neq in H.
    unfold currentInRange in Hr.
    destruct (Z.ltb_spec (Z.of_nat (currentQuestion (session w)))
                         (Z.of_nat (length (questions quiz)) - 1)); [done | lia]. }
  repeat split.
  - rewrite Hclick in H. by destruct (onLastQuestion quiz (session w)).
  - rewrite Hclick in H. unfold hasOwnProperty in H.
    destruct (onLastQuestion quiz (session w)); [done |]. simpl in H.
    destruct (bool_decide_reflect
                (is_Some (answers (session w) !! currentQuestion (session w)))); done.
  - intros [Hlast Hans]. rewrite Hclick, Hlast. unfold hasOwnProperty.
    rewrite bool_decide_eq_true_2 by done. simpl.
    intros Heq. apply (f_equal (λ w, currentQuestion (session w))) in Heq.
    simpl in Heq. rewrite Hmove in Heq by done. lia.
  - intros H. rewrite Hclick in *.
    destruct (onLastQuestion quiz (session w)) eqn:Hlast; [done |].
    destruct (hasOwnProperty _ _); [| done]. simpl. by apply Hmove.
  - intros Hi. unfold click, rendered, disabled. rewrite Hs, Hq.
    by rewrite bool_decide_eq_true_2.
  - intros Hi. unfold click, rendered, disabled. rewrite Hs, Hq.
    rewrite bool_decide_eq_false_2 by lia. done.
Qed.

Lemma next_needs_answer_jump_does_not_witness :
  showResults (session (mount (quiz3 (Int 10)))) = false
  ∧ currentInRange (quiz3 (Int 10)) (session (mount (quiz3 (Int 10))))
  ∧ click (quiz3 (Int 10)) (JumpButton 2) (mount (quiz3 (Int 10)))
    = onSession (setCurrentQuestion 2) (mount (quiz3 (Int 10))).
Proof.
  split; [reflexivity |].
  split; [unfold currentInRange; simpl; lia |].
  destruct (next_needs_answer_jump_does_not (quiz3 (Int 10)) (mount (quiz3 (Int 10))) 2)
    as (_ & _ & H & _); [reflexivity | unfold currentInRange; simpl; lia |].
  apply H. simpl. lia.
Defined.

(** ** What a session keeps *)

Section Keeps.

Context (quiz : Quiz).

Lemma submit_shownIsDelivered (w : World) : shownIsDelivered quiz (submit quiz w).
Proof.
  intros _. unfold submit. simpl. repeat split. by rewrite last_snoc.
Qed.

Lemma timerEffect_shownIsDelivered (w : World) :
  shownIsDelivered quiz w → shownIsDelivered quiz (timerEffect quiz w).
Proof.
  intros H. unfold timerEffect.
  destruct (gt0 _ && negb _); [done |].
  destruct (is0 _ && negb _); [apply submit_shownIsDelivered | done].
Qed.

Lemma not_completed_shownIsDelivered (w : World) :
  quizCompleted (session w) = false → shownIsDelivered quiz w.
Proof. intros H Hc. congruence. Qed.

Lemma step_keeps_completed (w : World) (op : Op) :
  match op with SelectAnswer _ _ | GoToQuestion _ | Next | Previous => True | _ => False end →
  quizCompleted (session (step quiz w op)) = quizCompleted (session w)
  ∧ timeRemaining (session (step quiz w op)) = timeRemaining (session w)
  ∧ delivered (step quiz w op) = delivered w.
Proof. destruct op; simpl; try done; intros _; repeat split; handler_cases. Qed.

Lemma fire_shownIsDelivered (w : World) (e : Event) :
  shownIsDelivered quiz w → shownIsDelivered quiz (fire quiz w e).
Proof.
  intros H. destruct e as [c |]; simpl.
  - unfold click.
    destruct (rendered quiz (session w) c && negb (disabled quiz (session w) c)) eqn:E;
      [| done].
    apply andb_true_iff in E as [Hr _].
    destruct (quizCompleted (session w)) eqn:Hc.
    + destruct (H Hc) as (Hs & _).
      destruct c; try (by rewrite results_view_controls in Hr).
      simpl. by apply timerEffect_shownIsDelivered, not_completed_shownIsDelivered.
    + destruct c; simpl.
      * by apply not_completed_shownIsDelivered.
      * apply not_completed_shownIsDelivered. simpl. rewrite <- Hc. handler_cases.
      * by apply not_completed_shownIsDelivered.
      * apply not_completed_shownIsDelivered. simpl. rewrite <- Hc. handler_cases.
      * apply timerEffect_shownIsDelivered, submit_shownIsDelivered.
      * by apply timerEffect_shownIsDelivered, not_completed_shownIsDelivered.
  - unfold tick, timerPending.
    destruct (quizCompleted (session w)) eqn:Hc.
    + by rewrite andb_false_r.
    + destruct (gt0 _ && negb false); [| done].
      by apply timerEffect_shownIsDelivered, not_completed_shownIsDelivered.
Qed.

Lemma play_shownIsDelivered (events : list Event) :
  ∀ w, shownIsDelivered quiz w → shownIsDelivered quiz (play quiz events w).
Proof.
  induction events as [| e events IH]; intros w H; [done |].
  simpl. apply IH. by apply fire_shownIsDelivered.
Qed.

Lemma mount_shownIsDelivered : shownIsDelivered quiz (mount quiz).
Proof.
  unfold mount. by apply timerEffect_shownIsDelivered, not_completed_shownIsDelivered.
Qed.

Lemma timerEffect_deliveredOnce (w : World) :
  deliveredOnce w → deliveredOnce (timerEffect quiz w).
Proof.
  intros [Hf Hl]. unfold timerEffect.
  destruct (gt0 _ && negb _); [done |].
  destruct (is0 _ && negb (quizCompleted (session w))) eqn:E; [| done].
  apply andb_true_iff in E as [_ E]. apply negb_true_iff in E.
  rewrite E in Hl. split; [done |].
  unfold submit. simpl. rewrite length_app, Hl. done.
Qed.

Lemma deliveredOnce_in_progress (w : World) (s : State) :
  deliveredOnce w → quizCompleted (session w) = false →
  quizCompleted s = false → showResults s = showResults (session w) →
  deliveredOnce {| session := s; delivered := delivered w |}.
Proof.
  intros [Hf Hl] Hc Hc' Hs. rewrite Hc in Hf, Hl.
  split; simpl; rewrite Hc'; congruence.
Qed.

Lemma fire_deliveredOnce (w : World) (e : Event) :
  noRetake e = true → deliveredOnce w → deliveredOnce (fire quiz w e).
Proof.
  intros Hn H. destruct e as [c |]; simpl.
  - unfold click.
    destruct (rendered quiz (session w) c && negb (disabled quiz (session w) c)) eqn:E;
      [| done].
    apply andb_true_iff in E as [Hr _].
    destruct (quizCompleted (session w)) eqn:Hc.
    + destruct H as [Hf _]. rewrite Hc in Hf.
      destruct c; try done; by rewrite results_view_controls in Hr.
    + destruct c; try done; simpl.
      * apply (deliveredOnce_in_progress w (handlePrevious (session w))); try done;
          [rewrite <- Hc |]; handler_cases.
      * apply (deliveredOnce_in_progress w (handleNext quiz (session w))); try done;
          [rewrite <- Hc |]; handler_cases.
      * apply timerEffect_deliveredOnce. destruct H as [Hf Hl]. rewrite Hc in Hl.
        split; [done |]. unfold submit. simpl. rewrite length_app, Hl. done.
  - unfold tick, timerPending.
    destruct (quizCompleted (session w)) eqn:Hc.
    + by rewrite andb_false_r.
    + destruct (gt0 _ && negb false); [| done].
      apply timerEffect_deliveredOnce. by apply deliveredOnce_in_progress.
Qed.

Lemma play_deliveredOnce (events : list Event) :
  forallb noRetake events = true →
  ∀ w, deliveredOnce w → deliveredOnce (play quiz events w).
Proof.
  induction events as [| e events IH]; intros Hn w H; [done |].
  simpl in Hn. apply andb_true_iff in Hn as [Hn1 Hn2].
  simpl. apply IH; [done |]. by apply fire_deliveredOnce.
Qed.

Lemma mount_deliveredOnce : deliveredOnce (mount quiz).
Proof. unfold mount. by apply timerEffect_deliveredOnce. Qed.

End Keeps.

(** X6: Whenever the session is Submitted, the results view is shown, the
    score in it is the score of the answers in it, and the last record
    passed to [onComplete] carries those answers, that score and the time
    used up. *)
Theorem results_shown_are_results_delivered (quiz : Quiz) (events : list Event) :
  status (session (play quiz events (mount quiz))) = Submitted →
  showResults (session (play quiz events (mount quiz))) = true
  ∧ score (session (play quiz events (mount quiz)))
    = calculateScore quiz (answers (session (play quiz events (mount quiz))))
  ∧ last (delivered (play quiz events (mount quiz)))
    = Some {| result_answers := answers (session (play quiz events (mount quiz)));
              result_score := score (session (play quiz events (mount quiz)));
              result_timeSpent :=
                sub (mul (timeLimit quiz) (Int 60))
                    (timeRemaining (session (play quiz events (mount quiz)))) |}.
Proof.
  intros H. apply status_Submitted in H.
  by apply (play_shownIsDelivered quiz events (mount quiz) (mount_shownIsDelivered quiz)).
Qed.

Lemma results_shown_are_results_delivered_witness :
  status (session submitted3) = Submitted
  ∧ score (session submitted3)
    = calculateScore (quiz3 (Int 10)) (answers (session submitted3))
  ∧ result_score <$> last (delivered submitted3) = Some (Int 67).
Proof.
  split; [reflexivity |].
  destruct (results_shown_are_results_delivered (quiz3 (Int 10))
              (answering3 ++ [Click SubmitButton])) as (_ & H2 & H3); [reflexivity |].
  split; [exact H2 |].
  change (result_score <$> last (delivered (play (quiz3 (Int 10))
            (answering3 ++ [Click SubmitButton]) (mount (quiz3 (Int 10))))) = Some (Int 67)).
  rewrite H3. reflexivity.
Defined.

(** X7: As long as Retake is not clicked, [onComplete] is called exactly
    once, at the moment the session is submitted: nothing is delivered
    while the session is in progress, and nothing more once it is
    submitted. *)
Theorem onComplete_called_once (quiz : Quiz) (events : list Event) :
  forallb noRetake events = true →
  length (delivered (play quiz events (mount quiz)))
  = match status (session (play quiz events (mount quiz))) with
    | Submitted => 1%nat
    | InProgress => 0%nat
    end.
Proof.
  intros H.
  destruct (play_deliveredOnce quiz events H (mount quiz) (mount_deliveredOnce quiz))
    as [_ Hl].
  rewrite Hl. unfold status. by destruct (quizCompleted _).
Qed.

Lemma onComplete_called_once_witness :
  forallb noRetake (answering3 ++ [Click SubmitButton; Second; Click SubmitButton]) = true
  ∧ length (delivered (play (quiz3 (Int 10))
                            (answering3 ++ [Click SubmitButton; Second; Click SubmitButton])
                            (mount (quiz3 (Int 10))))) = 1%nat.
Proof.
  split; [reflexivity |].
  rewrite (onComplete_called_once (quiz3 (Int 10))) by reflexivity. reflexivity.
Defined.

(** ** The time limit *)

Section TimeLimit.

Context (quiz : Quiz).

Lemma click_keepsGoing_showResults (c : Control) (w : World) :
  keepsGoing (Click c) = true →
  showResults (session (click quiz c w)) = showResults (session w).
Proof.
  intros H. unfold click.
  destruct (rendered quiz (session w) c && negb (disabled quiz (session w) c)); [| done].
  destruct c; try done; simpl; handler_cases.
Qed.

(** Once the results are shown, only Retake changes anything. *)
Lemma play_idle_after_submission (events : list Event) (w : World) :
  quizCompleted (session w) = true → showResults (session w) = true →
  forallb noRetake events = true →
  play quiz events w = w.
Proof.
  intros Hc Hs. induction events as [| e events IH]; intros Hk; [done |].
  simpl in Hk. apply andb_true_iff in Hk as [Hk1 Hk2].
  assert (fire quiz w e = w) as Hfire.
  { destruct e as [c |]; simpl.
    - unfold click. rewrite results_view_controls; [done | done |].
      by destruct c.
    - by apply tick_completed. }
  simpl. rewrite Hfire. by apply IH.
Qed.

Lemma keepsGoing_noRetake (events : list Event) :
  forallb keepsGoing events = true → forallb noRetake events = true.
Proof.
  induction events as [| e events IH]; [done |]. simpl.
  intros H. apply andb_true_iff in H as [H1 H2].
  rewrite IH by done. by destruct e as [[] |].
Qed.

(** When the seconds that pass reach those left, the session has been
    submitted by the timer, at zero, and nothing has happened since. *)
Lemma play_runs_out (events : list Event) :
  ∀ (w : World) (t : Z),
    timeRemaining (session w) = Int t → 0 < t →
    quizCompleted (session w) = false →
    forallb keepsGoing events = true →
    t ≤ Z.of_nat (seconds events) →
    quizCompleted (session (play quiz events w)) = true
    ∧ timeRemaining (session (play quiz events w)) = Int 0
    ∧ ∃ a, delivered (play quiz events w)
           = delivered w ++ [ {| result_answers := a;
                                 result_score := calculateScore quiz a;
                                 result_timeSpent := sub (mul (timeLimit quiz) (Int 60)) (Int 0) |} ].
Proof.
  induction events as [| e events IH]; intros w t Ht Hpos Hc Hk Hs.
  - simpl in Hs. lia.
  - simpl in Hk. apply andb_true_iff in Hk as [Hk1 Hk2].
    destruct e as [c |].
    + destruct (click_keepsGoing quiz c w Hk1) as (Et & Ec & Ed).
      simpl in *. rewrite <- Ed. apply (IH _ t); [by rewrite Et | done | by rewrite Ec | done | done].
    + simpl in Hs.
      assert (play quiz (Second :: events) w = play quiz events (tick quiz w)) as -> by done.
      destruct (decide (t = 1)) as [-> | Hne].
      * rewrite (tick_expires quiz w Ht Hc).
        rewrite play_idle_after_submission; [| done | done | by apply keepsGoing_noRetake].
        unfold submit. simpl. rewrite Ht. simpl. repeat split. by eexists.
      * destruct (tick_counts_down quiz w t Ht) as [Etick Et]; [lia | done |].
        destruct (IH (tick quiz w) (t - 1)) as (R1 & R2 & a & R3);
          [done | lia | by rewrite Etick | done | lia |].
        repeat split; [done | done |]. exists a. by rewrite R3, Etick.
Qed.

(** With a limit that is neither positive nor zero nothing is ever
    pending, and no second changes the session. *)
Lemma fire_without_limit (w : World) (e : Event) :
  gt0 (timeLimit quiz) = false → is0 (timeLimit quiz) = false →
  noSubmitClick e = true →
  quizCompleted (session w) = false ∧ showResults (session w) = false
  ∧ timeRemaining (session w) = mul (timeLimit quiz) (Int 60) ∧ delivered w = [] →
  quizCompleted (session (fire quiz w e)) = false
  ∧ showResults (session (fire quiz w e)) = false
  ∧ timeRemaining (session (fire quiz w e)) = mul (timeLimit quiz) (Int 60)
  ∧ delivered (fire quiz w e) = [].
Proof.
  intros Hg Hz Hn (Hc & Hs & Ht & Hd). destruct e as [c |]; simpl.
  - unfold click.
    destruct (rendered quiz (session w) c && negb (disabled quiz (session w) c)) eqn:E;
      [| done].
    apply andb_true_iff in E as [Hr _].
    destruct c; try done; simpl.
    + repeat split; try done; [rewrite <- Hc | rewrite <- Hs | rewrite <- Ht]; handler_cases.
    + repeat split; try done; [rewrite <- Hc | rewrite <- Hs | rewrite <- Ht]; handler_cases.
    + unfold rendered in Hr. rewrite Hs in Hr.
      by destruct (questions quiz !! currentQuestion (session w)).
  - rewrite tick_not_positive; [done |]. by rewrite Ht, gt0_mul_60.
Qed.

End TimeLimit.

(** X8: For every quiz with at least one question and a positive time
    limit of [m] minutes, with [60 m] in the range in which numbers are
    exact, and whatever the respondent clicks short of Submit and
    Retake: while fewer than [60 m]
    seconds have passed the session is in progress, the timer shows what
    is left, and submitting now would report the seconds passed as time
    spent; from the [60 m]-th second on the session is Submitted, by the
    timer, with the timer at zero and one result delivered whose time
    spent is the whole limit. *)
Theorem timer_runs_out_at_the_limit (quiz : Quiz) (m : Z) (events : list Event) :
  questions quiz ≠ [] →
  timeLimit quiz = Int m → 0 < m → 60 * m < 2 ^ 53 →
  forallb keepsGoing events = true →
  (Z.of_nat (seconds events) < 60 * m →
     status (session (play quiz events (mount quiz))) = InProgress
     ∧ timeRemaining (session (play quiz events (mount quiz)))
       = Int (60 * m - Z.of_nat (seconds events))
     ∧ result_timeSpent (handleSubmitQuiz quiz (session (play quiz events (mount quiz)))).2
       = Int (Z.of_nat (seconds events)))
  ∧ (60 * m ≤ Z.of_nat (seconds events) →
     status (session (play quiz events (mount quiz))) = Submitted
     ∧ timeRemaining (session (play quiz events (mount quiz))) = Int 0
     ∧ result_timeSpent <$> delivered (play quiz events (mount quiz)) = [Int (60 * m)]).
Proof.
  intros _ Hlimit Hpos _ Hk.
  rewrite (mount_timed quiz m Hlimit Hpos).
  set (w0 := {| session := initialState quiz; delivered := [] |}).
  assert (timeRemaining (session w0) = Int (60 * m)) as H0.
  { simpl. rewrite Hlimit. simpl. f_equal. lia. }
  split.
  - intros Hlt.
    destruct (play_counts_down quiz events w0 (60 * m)) as (Ht & Hc & _); try done.
    split; [by apply status_InProgress |]. split; [done |].
    simpl. rewrite Ht, Hlimit. simpl. f_equal. lia.
  - intros Hge.
    destruct (play_runs_out quiz events w0 (60 * m)) as (Hc & Ht & a & Hd);
      try done; [lia |].
    split; [by apply status_Submitted |]. split; [done |].
    rewrite Hd. simpl. rewrite Hlimit. simpl. do 2 f_equal. lia.
Qed.

Lemma timer_runs_out_at_the_limit_witness :
  questions (quiz3 (Int 2)) ≠ []
  ∧ timeLimit (quiz3 (Int 2)) = Int 2 ∧ 0 < 2 ∧ 60 * 2 < 2 ^ 53
  ∧ forallb keepsGoing (replicate 45 Second ++ [Click (OptionRadio 1)]) = true
  ∧ timeRemaining (session (play (quiz3 (Int 2))
                                 (replicate 45 Second ++ [Click (OptionRadio 1)])
                                 (mount (quiz3 (Int 2))))) = Int 75
  ∧ status (session (play (quiz3 (Int 2)) (replicate 130 Second) (mount (quiz3 (Int 2)))))
    = Submitted.
Proof.
  split; [discriminate |].
  split; [reflexivity |]. split; [lia |]. split; [reflexivity |]. split; [reflexivity |].
  split.
  - destruct (timer_runs_out_at_the_limit (quiz3 (Int 2)) 2
                (replicate 45 Second ++ [Click (OptionRadio 1)]))
      as [H _]; [discriminate | reflexivity | lia | reflexivity | reflexivity |].
    destruct H as (_ & H & _); [vm_compute; reflexivity |]. exact H.
  - destruct (timer_runs_out_at_the_limit (quiz3 (Int 2)) 2 (replicate 130 Second))
      as [_ H]; [discriminate | reflexivity | lia | reflexivity | reflexivity |].
    destruct H as (H & _); [vm_compute; discriminate |]. exact H.
Defined.

(** X9: A quiz whose [timeLimit] is absent, or negative, has no time limit:
    whatever happens short of a click on Submit, the session stays in
    progress, the timer never moves and nothing is delivered. *)
Theorem no_limit_never_times_out (quiz : Quiz) (events : list Event) :
  gt0 (timeLimit quiz) = false → is0 (timeLimit quiz) = false →
  forallb noSubmitClick events = true →
  status (session (play quiz events (mount quiz))) = InProgress
  ∧ timeRemaining (session (play quiz events (mount quiz)))
    = timeRemaining (initialState quiz)
  ∧ delivered (play quiz events (mount quiz)) = [].
Proof.
  intros Hg Hz Hn.
  assert (mount quiz = {| session := initialState quiz; delivered := [] |}) as ->.
  { unfold mount. apply timerEffect_not_zero. simpl. by rewrite is0_mul_60. }
  set (w0 := {| session := initialState quiz; delivered := [] |}).
  assert (∀ w, quizCompleted (session w) = false ∧ showResults (session w) = false
               ∧ timeRemaining (session w) = mul (timeLimit quiz) (Int 60)
               ∧ delivered w = [] →
          quizCompleted (session (play quiz events w)) = false
          ∧ showResults (session (play quiz events w)) = false
          ∧ timeRemaining (session (play quiz events w)) = mul (timeLimit quiz) (Int 60)
          ∧ delivered (play quiz events w) = []) as Hplay.
  { induction events as [| e events IH]; intros w H; [done |].
    simpl in Hn. apply andb_true_iff in Hn as [Hn1 Hn2].
    simpl. apply IH; [done |]. by apply fire_without_limit. }
  destruct (Hplay w0) as (Hc & _ & Ht & Hd); [done |].
  split; [by apply status_InProgress | done].
Qed.

Lemma no_limit_never_times_out_witness :
  gt0 (timeLimit (quiz3 NaN)) = false ∧ is0 (timeLimit (quiz3 NaN)) = false
  ∧ forallb noSubmitClick (answering3 ++ replicate 500 Second) = true
  ∧ status (session (play (quiz3 NaN) (answering3 ++ replicate 500 Second)
                          (mount (quiz3 NaN)))) = InProgress.
Proof.
  split; [reflexivity |]. split; [reflexivity |]. split; [reflexivity |].
  apply (no_limit_never_times_out (quiz3 NaN) (answering3 ++ replicate 500 Second));
    reflexivity.
Defined.

(** ** The timer within its limit *)

Section TimeBounds.

Context (quiz : Quiz) (m : Z).
Hypothesis limit : timeLimit quiz = Int m.
Hypothesis limit_nonneg : 0 ≤ m.

Lemma timerEffect_timeInvariant (w : World) :
  withinLimit m w → timeInvariant m (timerEffect quiz w).
Proof.
  intros (t & Ht & Hb). unfold timerEffect. rewrite Ht. simpl.
  destruct (Z.ltb_spec 0 t); simpl.
  - destruct (quizCompleted (session w)); simpl.
    + destruct (Z.eqb_spec t 0); simpl; exists t; (split; [done | split; [done | lia]]).
    + exists t. split; [done | split; [done | lia]].
  - assert (t = 0) as -> by lia. simpl.
    destruct (quizCompleted (session w)) eqn:Hc; simpl.
    + exists 0. by rewrite Hc.
    + exists 0. unfold submit. simpl. by rewrite Ht.
Qed.

Lemma fire_timeInvariant (w : World) (e : Event) :
  timeInvariant m w → timeInvariant m (fire quiz w e).
Proof.
  intros (t & Ht & Hb & Hz). destruct e as [c |]; simpl.
  - unfold click.
    destruct (rendered quiz (session w) c && negb (disabled quiz (session w) c));
      [| by exists t].
    destruct c; simpl.
    + by exists t.
    + exists t. split; [rewrite <- Ht; simpl; handler_cases | split; [done |]].
      intros H. rewrite <- (Hz H). simpl. handler_cases.
    + by exists t.
    + exists t. split; [rewrite <- Ht; simpl; handler_cases | split; [done |]].
      intros H. rewrite <- (Hz H). simpl. handler_cases.
    + apply timerEffect_timeInvariant. exists t. unfold submit. simpl. by rewrite Ht.
    + apply timerEffect_timeInvariant. exists (60 * m). simpl. rewrite limit. simpl.
      split; [f_equal; lia | lia].
  - unfold tick, timerPending. rewrite Ht. simpl.
    destruct (Z.ltb_spec 0 t); simpl; [| by exists t].
    destruct (quizCompleted (session w)) eqn:Hc; simpl.
    { exists t. split; [done | split; [done |]]. by rewrite Hc. }
    apply timerEffect_timeInvariant. exists (t - 1). simpl. rewrite Ht. simpl.
    split; [done | lia].
Qed.

Lemma play_timeInvariant (events : list Event) :
  ∀ w, timeInvariant m w → timeInvariant m (play quiz events w).
Proof.
  induction events as [| e events IH]; intros w H; [done |].
  simpl. apply IH. by apply fire_timeInvariant.
Qed.

Lemma mount_timeInvariant : timeInvariant m (mount quiz).
Proof.
  unfold mount. apply timerEffect_timeInvariant. exists (60 * m). simpl.
  rewrite limit. simpl. split; [f_equal; lia | lia].
Qed.

End TimeBounds.

(** X10: Under a time limit of [m] minutes, with [60 m] in the range in
    which numbers are exact, the timer never leaves the range from 0 to
    [60 m], whatever is clicked, and it shows zero only in a submitted
    session: no session is ever in progress with no time left. *)
Theorem timer_stays_within_limit (quiz : Quiz) (m : Z) (events : list Event) :
  timeLimit quiz = Int m → 0 ≤ m → 60 * m < 2 ^ 53 →
  ∃ t, timeRemaining (session (play quiz events (mount quiz))) = Int t
       ∧ 0 ≤ t ≤ 60 * m
       ∧ (t = 0 → status (session (play quiz events (mount quiz))) = Submitted).
Proof.
  intros Hlimit Hm _.
  destruct (play_timeInvariant quiz m Hlimit events (mount quiz)
              (mount_timeInvariant quiz m Hlimit Hm)) as (t & Ht & Hb & Hz).
  exists t. split; [done | split; [done |]].
  intros H. by apply status_Submitted, Hz.
Qed.

Lemma timer_stays_within_limit_witness :
  timeLimit (quiz3 (Int 1)) = Int 1 ∧ 0 ≤ 1 ∧ 60 * 1 < 2 ^ 53
  ∧ ∃ t, timeRemaining (session (play (quiz3 (Int 1))
                                      (replicate 70 Second ++ [Click RetakeButton; Second])
                                      (mount (quiz3 (Int 1))))) = Int t
         ∧ 0 ≤ t ≤ 60.
Proof.
  split; [reflexivity |]. split; [lia |]. split; [reflexivity |].
  destruct (timer_stays_within_limit (quiz3 (Int 1)) 1
              (replicate 70 Second ++ [Click RetakeButton; Second]))
    as (t & Ht & Hb & _); [reflexivity | lia | reflexivity |].
  exists t. split; [exact Ht | lia].
Defined.

(** ** The clock *)

Lemma secondsFieldsDistinct_true : secondsFieldsDistinct = true.
Proof. vm_compute. reflexivity. Qed.

Lemma string_length_app (a b : string) :
  String.length (a +:+ b) = (String.length a + String.length b)%nat.
Proof.
  induction a as [| c a IH]; [done |].
  change (S (String.length (a +:+ b)) = S (String.length a + String.length b)).
  by rewrite IH.
Qed.

(** Two strings that end in fields of the same width agree field by
    field. *)
Lemma string_app_inj_length (a a' b b' : string) :
  a +:+ b = a' +:+ b' → String.length b = String.length b' → a = a' ∧ b = b'.
Proof.
  revert a'. induction a as [| c a IH]; intros [| c' a'] Heq Hlen.
  - done.
  - change (b = String c' (a' +:+ b')) in Heq.
    rewrite Heq in Hlen. simpl in Hlen. rewrite string_length_app in Hlen. lia.
  - change (String c (a +:+ b) = b') in Heq.
    rewrite <- Heq in Hlen. simpl in Hlen. rewrite string_length_app in Hlen. lia.
  - change (String c (a +:+ b) = String c' (a' +:+ b')) in Heq.
    injection Heq as -> Heq. destruct (IH a' Heq Hlen) as [-> ->]. done.
Qed.

Lemma seconds_field (r : Z) :
  0 ≤ r < 60 →
  String.length (padStart2 (pretty r)) = 2%nat
  ∧ ∀ r', 0 ≤ r' < 60 → padStart2 (pretty r) = padStart2 (pretty r') → r = r'.
Proof.
  intros Hr.
  pose proof secondsFieldsDistinct_true as H. unfold secondsFieldsDistinct in H.
  rewrite forallb_forall in H.
  specialize (H (Z.to_nat r)). rewrite Z2Nat.id in H by lia.
  destruct (proj1 (andb_true_iff _ _) (H ltac:(apply in_seq; lia))) as [H1 H2].
  split; [by apply Nat.eqb_eq in H1 |].
  intros r' Hr' Heq. rewrite forallb_forall in H2.
  specialize (H2 (Z.to_nat r')). rewrite Z2Nat.id in H2 by lia.
  specialize (H2 ltac:(apply in_seq; lia)).
  rewrite Heq, String.eqb_refl in H2. simpl in H2.
  apply Nat.eqb_eq in H2. lia.
Qed.

(** X11: For a time that is not negative, in the range in which numbers
    are exact, [formatTime] shows the whole minutes, a colon and the
    remaining seconds on exactly two places, and two different such
    times are never shown alike. *)
Theorem formatTime_unambiguous (a b : Z) :
  0 ≤ a < 2 ^ 53 → 0 ≤ b < 2 ^ 53 →
  (∃ field, formatTime (Int a) = pretty (a / 60) +:+ ":" +:+ field
            ∧ String.length field = 2%nat
            ∧ field = padStart2 (pretty (a mod 60)))
  ∧ (formatTime (Int a) = formatTime (Int b) → a = b).
Proof.
  intros [Ha _] [Hb _].
  assert (∀ z, 0 ≤ z →
    formatTime (Int z) = pretty (z / 60) +:+ ":" +:+ padStart2 (pretty (z mod 60))) as Hshape.
  { intros z Hz. unfold formatTime. simpl. by rewrite Z.rem_mod_nonneg by lia. }
  split.
  - eexists. split; [by apply Hshape |]. split; [| done].
    apply seconds_field. by apply Z.mod_pos_bound.
  - rewrite !Hshape by done. intros Heq.
    destruct (seconds_field (a mod 60)) as [La Ia]; [by apply Z.mod_pos_bound |].
    destruct (seconds_field (b mod 60)) as [Lb _]; [by apply Z.mod_pos_bound |].
    apply string_app_inj_length in Heq as [Hmin Hsec].
    + apply (inj pretty) in Hmin.
      apply (inj (String.append ":")) in Hsec.
      apply Ia in Hsec; [| by apply Z.mod_pos_bound].
      rewrite (Z.div_mod a 60), (Z.div_mod b 60) by lia. lia.
    + rewrite !string_length_app. lia.
Qed.

Lemma formatTime_unambiguous_witness :
  0 ≤ 75 < 2 ^ 53 ∧ 0 ≤ 605 < 2 ^ 53
  ∧ formatTime (Int 75) = "1:15" ∧ formatTime (Int 605) = "10:05"
  ∧ (formatTime (Int 75) = formatTime (Int 605) → 75 = 605).
Proof.
  split; [by split |]. split; [by split |].
  split; [reflexivity |]. split; [reflexivity |].
  apply (formatTime_unambiguous 75 605); by split.
Defined.

(** ** Percentages *)

Lemma wellScored_199 : forallb wellScored (seq 1 199) = true.
Proof. vm_compute. reflexivity. Qed.

Lemma percentage_well_scored (correct len : nat) :
  (1 ≤ len ≤ 199)%nat → (correct ≤ len)%nat →
  ∃ p, percentage correct len = Int p
       ∧ 0 ≤ p ≤ 100
       ∧ (p = 0 ↔ correct = 0%nat)
       ∧ (p = 100 ↔ correct = len)
       ∧ ((correct < len)%nat → ∃ p', percentage (S correct) len = Int p' ∧ p ≤ p').
Proof.
  intros Hlen Hc.
  assert (In len (seq 1 199)) as Hin1 by (apply in_seq; lia).
  assert (In correct (seq 0 (S len))) as Hin2 by (apply in_seq; lia).
  pose proof (proj1 (forallb_forall _ _) wellScored_199 len Hin1) as H.
  pose proof (proj1 (forallb_forall _ _) H correct Hin2) as H'. clear H.
  cbv beta in H'.
  destruct (percentage correct len) as [| | p]; [discriminate H' | discriminate H' |].
  destruct (percentage (S correct) len) as [| | p']; [discriminate H' | discriminate H' |].
  apply andb_true_iff in H' as [H' Hmono].
  apply andb_true_iff in H' as [H' Hfull].
  apply andb_true_iff in H' as [H' Hzero].
  apply andb_true_iff in H' as [Hlo Hhi].
  apply Z.leb_le in Hlo, Hhi. apply eqb_prop in Hzero, Hfull.
  exists p. split; [reflexivity |].
  split; [lia |].
  split; [| split].
  - rewrite <- Z.eqb_eq, <- Nat.eqb_eq, Hzero. reflexivity.
  - rewrite <- Z.eqb_eq, <- Nat.eqb_eq, Hfull. reflexivity.
  - intros Hlt. exists p'. split; [reflexivity |].
    apply orb_true_iff in Hmono as [Hmono | Hmono].
    + apply Nat.leb_le in Hmono. lia.
    + by apply Z.leb_le.
Qed.

Lemma countCorrect_le (a : gmap nat nat) (qs : list Question) :
  ∀ index, (countCorrect a index qs ≤ length qs)%nat.
Proof.
  induction qs as [| q rest IH]; intros index; simpl; [done |].
  specialize (IH (S index)). destruct (isCorrect a index q); lia.
Qed.

(** Answering correctly a question that was not answered correctly adds
    one to the count. *)
Lemma countCorrect_insert_correct (a : gmap nat nat) (i : nat) (qs : list Question) :
  ∀ index q, (index ≤ i)%nat → qs !! (i - index)%nat = Some q →
    isCorrect a i q = false →
    countCorrect (<[i := correctAnswer q]> a) index qs = S (countCorrect a index qs).
Proof.
  induction qs as [| q0 rest IH]; intros index q Hle Hq Hwrong; [done |].
  simpl. destruct (decide (index = i)) as [-> | Hne].
  - rewrite Nat.sub_diag in Hq. injection Hq as ->.
    rewrite Hwrong. unfold isCorrect at 1. rewrite lookup_insert_eq.
    rewrite bool_decide_eq_true_2 by done.
    f_equal. simpl.
    assert (∀ idx, (i < idx)%nat →
      countCorrect (<[i := correctAnswer q]> a) idx rest = countCorrect a idx rest) as Hrest.
    { clear. induction rest as [| q1 rest IH]; intros idx Hlt; [done |].
      simpl. rewrite IH by lia. f_equal. unfold isCorrect.
      rewrite lookup_insert_ne by lia. done. }
    apply Hrest. lia.
  - replace (i - index)%nat with (S (i - S index)) in Hq by lia.
    rewrite (IH (S index) q) by (done || lia).
    unfold isCorrect at 1. rewrite lookup_insert_ne by done.
    fold (isCorrect a index q0). destruct (isCorrect a index q0); lia.
Qed.

(** The loop counts every question exactly when each has its correct
    option recorded, and none exactly when no question has. *)
Lemma countCorrect_all_iff (a : gmap nat nat) (qs : list Question) :
  ∀ index,
    countCorrect a index qs = length qs
    ↔ ∀ j q, qs !! j = Some q → a !! (index + j)%nat = Some (correctAnswer q).
Proof.
  induction qs as [| q0 rest IH]; intros index; [by split |].
  simpl. pose proof (countCorrect_le a rest (S index)) as Hle.
  unfold isCorrect. case_bool_decide as Hc; split.
  - intros H j q Hq. destruct j as [| j].
    + injection Hq as <-. by rewrite Nat.add_0_r.
    + replace (index + S j)%nat with (S index + j)%nat by lia.
      apply (proj1 (IH (S index))); [lia | done].
  - intros H. f_equal. apply IH. intros j q Hq.
    replace (S index + j)%nat with (index + S j)%nat by lia. by apply H.
  - lia.
  - intros H. exfalso. apply Hc. rewrite <- (Nat.add_0_r index). by apply H.
Qed.

Lemma countCorrect_none_iff (a : gmap nat nat) (qs : list Question) :
  ∀ index,
    countCorrect a index qs = 0%nat
    ↔ ∀ j q, qs !! j = Some q → a !! (index + j)%nat ≠ Some (correctAnswer q).
Proof.
  induction qs as [| q0 rest IH]; intros index; [by split |].
  simpl. unfold isCorrect. case_bool_decide as Hc; split.
  - lia.
  - intros H. exfalso. apply (H 0%nat q0); [done |]. by rewrite Nat.add_0_r.
  - intros H j q Hq. destruct j as [| j].
    + injection Hq as <-. by rewrite Nat.add_0_r.
    + replace (index + S j)%nat with (S index + j)%nat by lia.
      apply (proj1 (IH (S index))); [lia | done].
  - intros H. simpl. apply IH. intros j q Hq.
    replace (S index + j)%nat with (index + S j)%nat by lia. by apply H.
Qed.

(** X12: For a quiz of 1 to 199 questions the score is a whole number from 0
    to 100; it is 100 exactly when the answers hold, for every question
    of the quiz, its correct option, and 0 exactly when they hold the
    correct option of no question (each being unanswered or answered
    with another option). *)
Theorem score_range_and_extremes (quiz : Quiz) (a : gmap nat nat) :
  (1 ≤ length (questions quiz) ≤ 199)%nat →
  ∃ p, calculateScore quiz a = Int p
       ∧ 0 ≤ p ≤ 100
       ∧ (p = 100
          ↔ ∀ index q, questions quiz !! index = Some q →
                       a !! index = Some (correctAnswer q))
       ∧ (p = 0
          ↔ ∀ index q, questions quiz !! index = Some q →
                       a !! index ≠ Some (correctAnswer q)).
Proof.
  intros Hlen. unfold calculateScore.
  destruct (percentage_well_scored (countCorrect a 0 (questions quiz))
              (length (questions quiz)) Hlen (countCorrect_le _ _ _))
    as (p & Hp & Hr & H0 & H100 & _).
  exists p. split; [done |]. split; [done |]. split.
  - rewrite H100. apply (countCorrect_all_iff a (questions quiz) 0).
  - rewrite H0. apply (countCorrect_none_iff a (questions quiz) 0).
Qed.

Lemma score_range_and_extremes_witness :
  (1 ≤ length (questions (quiz3 (Int 10))) ≤ 199)%nat
  ∧ calculateScore (quiz3 (Int 10)) {[ 0%nat := 1%nat; 1%nat := 0%nat; 2%nat := 2%nat ]}
    = Int 100
  ∧ calculateScore (quiz3 (Int 10)) {[ 0%nat := 0%nat ]} = Int 0.
Proof.
  split; [simpl; lia |].
  split.
  - destruct (score_range_and_extremes (quiz3 (Int 10))
                {[ 0%nat := 1%nat; 1%nat := 0%nat; 2%nat := 2%nat ]})
      as (p & Hp & _ & H100 & _); [simpl; lia |].
    rewrite Hp. f_equal. apply H100.
    intros [| [| [| index]]] q Hq; vm_compute in Hq;
      [injection Hq as <- .. | discriminate Hq]; vm_compute; reflexivity.
  - destruct (score_range_and_extremes (quiz3 (Int 10)) {[ 0%nat := 0%nat ]})
      as (p & Hp & _ & _ & H0); [simpl; lia |].
    rewrite Hp. f_equal. apply H0.
    intros [| [| [| index]]] q Hq; vm_compute in Hq;
      [injection Hq as <- .. | discriminate Hq]; intros H; vm_compute in H; discriminate H.
Defined.

(** X13: For a quiz of 1 to 199 questions, replacing an answer that is not
    correct, or no answer, by the correct one never lowers the score. *)
Theorem correct_answer_never_lowers_score
    (quiz : Quiz) (a : gmap nat nat) (i : nat) (q : Question) :
  (1 ≤ length (questions quiz) ≤ 199)%nat →
  questions quiz !! i = Some q →
  isCorrect a i q = false →
  ∃ p p', calculateScore quiz a = Int p
          ∧ calculateScore quiz (<[i := correctAnswer q]> a) = Int p'
          ∧ p ≤ p'.
Proof.
  intros Hlen Hq Hwrong. unfold calculateScore.
  rewrite (countCorrect_insert_correct a i (questions quiz) 0 q);
    [| lia | by rewrite Nat.sub_0_r | done].
  pose proof (countCorrect_le (<[i := correctAnswer q]> a) (questions quiz) 0) as Hle.
  rewrite (countCorrect_insert_correct a i (questions quiz) 0 q) in Hle;
    [| lia | by rewrite Nat.sub_0_r | done].
  destruct (percentage_well_scored (countCorrect a 0 (questions quiz))
              (length (questions quiz)) Hlen ltac:(lia))
    as (p & Hp & _ & _ & _ & Hnext).
  destruct Hnext as (p' & Hp' & Hpp'); [lia |].
  exists p, p'. done.
Qed.

Lemma correct_answer_never_lowers_score_witness :
  (1 ≤ length (questions (quiz3 (Int 10))) ≤ 199)%nat
  ∧ questions (quiz3 (Int 10)) !! 2%nat = Some (sampleQuestion 2)
  ∧ isCorrect (answers (session submitted3)) 2 (sampleQuestion 2) = false
  ∧ ∃ p p', calculateScore (quiz3 (Int 10)) (answers (session submitted3)) = Int p
            ∧ calculateScore (quiz3 (Int 10))
                (<[2%nat := correctAnswer (sampleQuestion 2)]> (answers (session submitted3)))
              = Int p'
            ∧ p ≤ p'.
Proof.
  split; [simpl; lia |]. split; [reflexivity |]. split; [reflexivity |].
  apply (correct_answer_never_lowers_score (quiz3 (Int 10)) (answers (session submitted3))
           2 (sampleQuestion 2)); [simpl; lia | reflexivity | reflexivity].
Defined.

(** X14: For a quiz of 1 to 199 questions the progress bar shows a whole
    percentage above 0, and 100 exactly on the last question. *)
Theorem progress_full_on_last_question (quiz : Quiz) (s : State) :
  (1 ≤ length (questions quiz) ≤ 199)%nat →
  currentInRange quiz s →
  ∃ p, getProgress quiz s = Int p
       ∧ 0 < p ≤ 100
       ∧ (p = 100 ↔ onLastQuestion quiz s = true).
Proof.
  intros Hlen Hr. unfold currentInRange in Hr. unfold getProgress.
  destruct (percentage_well_scored (S (currentQuestion s)) (length (questions quiz))
              Hlen ltac:(lia)) as (p & Hp & Hb & H0 & H100 & _).
  exists p. split; [done |]. split.
  - assert (p ≠ 0) by (intros H; apply H0 in H; lia). lia.
  - rewrite H100. unfold onLastQuestion. rewrite Z.eqb_eq. lia.
Qed.

Lemma progress_full_on_last_question_witness :
  (1 ≤ length (questions (quiz3 (Int 10))) ≤ 199)%nat
  ∧ currentInRange (quiz3 (Int 10)) (session partial3)
  ∧ getProgress (quiz3 (Int 10)) (session partial3) = Int 100.
Proof.
  split; [simpl; lia |].
  assert (currentInRange (quiz3 (Int 10)) (session partial3)) as Hr by (vm_compute; lia).
  split; [exact Hr |].
  destruct (progress_full_on_last_question (quiz3 (Int 10)) (session partial3))
    as (p & Hp & _ & H100); [simpl; lia | exact Hr |].
  rewrite Hp. f_equal. apply H100. reflexivity.
Defined.

(** ** What the quiz creator accepts *)

Lemma questionErrors_empty (e : gmap string string) (index : nat) (q : Question) :
  questionErrors e index q = ∅ ↔ e = ∅ ∧ questionOk q.
Proof.
  unfold questionErrors, questionOk.
  destruct (blank (question q));
    destruct (Nat.ltb_spec (length (filter (λ opt, blank opt = false) (options q))) 2)
      as [Hlt | Hge].
  - split; [intros H; by apply insert_non_empty in H | intros [_ [? _]]; done].
  - split; [intros H; by apply insert_non_empty in H | intros [_ [? _]]; done].
  - split; [intros H; by apply insert_non_empty in H | intros [_ [_ ?]]; lia].
  - split; [intros -> | intros [-> _]]; done.
Qed.

Lemma forEachQuestion_empty (qs : list Question) :
  ∀ index e, forEachQuestion index qs e = ∅ ↔ e = ∅ ∧ Forall questionOk qs.
Proof.
  induction qs as [| q rest IH]; intros index e; simpl.
  - split; [by intros -> | by intros [-> _]].
  - rewrite IH, questionErrors_empty, Forall_cons. tauto.
Qed.

Lemma newErrors_empty (quizData : Quiz) :
  newErrors quizData = ∅
  ↔ blank (title quizData) = false
    ∧ questions quizData ≠ []
    ∧ Forall questionOk (questions quizData).
Proof.
  unfold newErrors. rewrite forEachQuestion_empty.
  destruct (blank (title quizData)).
  - split; [| by intros [? _]].
    intros [H _]. exfalso. revert H. case_bool_decide.
    + rewrite insert_insert_ne by done. apply insert_non_empty.
    + apply insert_non_empty.
  - case_bool_decide as Hlen.
    + split; [intros [H _]; by apply insert_non_empty in H |].
      intros (_ & Hne & _). by destruct (questions quizData).
    + split.
      * intros [_ H]. repeat split; [| done]. intros Heq. by rewrite Heq in Hlen.
      * intros (_ & _ & H). done.
Qed.

(** X15: The quiz creator saves a quiz exactly when its title is not blank,
    it has at least one question, and every question has a text that is
    not blank and at least two options that are not blank.  Nothing else
    is looked at: not the time limit, and not whether the option marked
    correct is one of the options filled in. *)
Theorem validateQuiz_accepts_exactly (quizData : Quiz) :
  validateQuiz quizData = true
  ↔ blank (title quizData) = false
    ∧ questions quizData ≠ []
    ∧ Forall questionOk (questions quizData).
Proof.
  unfold validateQuiz. rewrite bool_decide_eq_true, map_size_empty_iff.
  apply newErrors_empty.
Qed.

(** ** Where the errors sit *)

Lemma questionKey_inj (i j : nat) : questionKey i = questionKey j → i = j.
Proof. intros H. by apply (inj (String.append "question_")), (inj pretty) in H. Qed.

Lemma optionsKey_inj (i j : nat) : optionsKey i = optionsKey j → i = j.
Proof. intros H. by apply (inj (String.append "options_")), (inj pretty) in H. Qed.

Lemma questionKey_optionsKey (i j : nat) : questionKey i ≠ optionsKey j.
Proof.
  unfold questionKey, optionsKey. intros H.
  apply (f_equal (String.get 0)) in H. vm_compute in H. discriminate H.
Qed.

Lemma title_not_a_question_key (i : nat) :
  "title" ≠ questionKey i ∧ "title" ≠ optionsKey i.
Proof.
  unfold questionKey, optionsKey.
  split; intros H; apply (f_equal (String.get 0)) in H; vm_compute in H; discriminate H.
Qed.

(** [questions] and [question_i] part at their ninth character. *)
Lemma questions_not_a_question_key (i : nat) :
  "questions" ≠ questionKey i ∧ "questions" ≠ optionsKey i.
Proof.
  unfold questionKey, optionsKey.
  split; intros H.
  - apply (f_equal (String.get 8)) in H. vm_compute in H. discriminate H.
  - apply (f_equal (String.get 0)) in H. vm_compute in H. discriminate H.
Qed.

(** A key that belongs to none of the questions gone through is left
    as it was. *)
Lemma forEachQuestion_other_key (qs : list Question) (k : string) :
  ∀ index e,
    (∀ j, (index ≤ j < index + length qs)%nat → k ≠ questionKey j ∧ k ≠ optionsKey j) →
    forEachQuestion index qs e !! k = e !! k.
Proof.
  induction qs as [| q rest IH]; intros index e Hk; [done |].
  simpl. rewrite IH.
  - destruct (Hk index) as [Hq Ho]; [simpl; lia |].
    unfold questionErrors. fold (questionKey index) (optionsKey index).
    destruct (blank (question q)), (_ <? 2)%nat;
      rewrite ?(lookup_insert_ne _ (optionsKey index)) by done;
      rewrite ?(lookup_insert_ne _ (questionKey index)) by done; done.
  - intros j Hj. apply Hk. simpl. lia.
Qed.

Lemma forEachQuestion_questionKey (qs : list Question) (i : nat) :
  ∀ index e q, (index ≤ i)%nat → qs !! (i - index)%nat = Some q →
    forEachQuestion index qs e !! questionKey i
    = if blank (question q) then Some "Question text is required" else e !! questionKey i.
Proof.
  induction qs as [| q0 rest IH]; intros index e q Hle Hq; [done |].
  simpl. destruct (decide (index = i)) as [-> | Hne].
  - rewrite Nat.sub_diag in Hq. injection Hq as ->.
    rewrite forEachQuestion_other_key.
    + unfold questionErrors. fold (questionKey i) (optionsKey i).
      destruct (blank (question q)), (_ <? 2)%nat;
        rewrite ?(lookup_insert_ne _ (optionsKey i)) by (apply not_eq_sym, questionKey_optionsKey);
        rewrite ?lookup_insert_eq; done.
    + intros j Hj. split.
      * intros H. apply questionKey_inj in H. lia.
      * apply questionKey_optionsKey.
  - replace (i - index)%nat with (S (i - S index)) in Hq by lia.
    rewrite (IH (S index) _ q) by (done || lia).
    destruct (blank (question q)); [done |].
    unfold questionErrors. fold (questionKey index) (optionsKey index).
    destruct (blank (question q0)), (_ <? 2)%nat;
      rewrite ?(lookup_insert_ne _ (optionsKey index)) by (apply not_eq_sym, questionKey_optionsKey);
      rewrite ?(lookup_insert_ne _ (questionKey index)) by (intros H; apply questionKey_inj in H; lia);
      done.
Qed.

Lemma forEachQuestion_optionsKey (qs : list Question) (i : nat) :
  ∀ index e q, (index ≤ i)%nat → qs !! (i - index)%nat = Some q →
    forEachQuestion index qs e !! optionsKey i
    = if (length (filter (λ opt, blank opt = false) (options q)) <? 2)%nat
      then Some "At least 2 options are required" else e !! optionsKey i.
Proof.
  induction qs as [| q0 rest IH]; intros index e q Hle Hq; [done |].
  simpl. destruct (decide (index = i)) as [-> | Hne].
  - rewrite Nat.sub_diag in Hq. injection Hq as ->.
    rewrite forEachQuestion_other_key.
    + unfold questionErrors. fold (questionKey i) (optionsKey i).
      destruct (blank (question q)), (_ <? 2)%nat;
        rewrite ?lookup_insert_eq;
        rewrite ?(lookup_insert_ne _ (questionKey i)) by apply questionKey_optionsKey;
        done.
    + intros j Hj. split.
      * apply not_eq_sym, questionKey_optionsKey.
      * intros H. apply optionsKey_inj in H. lia.
  - replace (i - index)%nat with (S (i - S index)) in Hq by lia.
    rewrite (IH (S index) _ q) by (done || lia).
    destruct (_ <? 2)%nat; [done |].
    unfold questionErrors. fold (questionKey index) (optionsKey index).
    destruct (blank (question q0)), (_ <? 2)%nat;
      rewrite ?(lookup_insert_ne _ (optionsKey index)) by (intros H; apply optionsKey_inj in H; lia);
      rewrite ?(lookup_insert_ne _ (questionKey index)) by apply questionKey_optionsKey;
      done.
Qed.

(** X16: The errors [validateQuiz] reports sit where they belong: under
    [question_i] there is an error exactly when question [i] exists and
    its text is blank, under [options_i] exactly when it has fewer than
    two options that are not blank, under [title] exactly when the title
    is blank and under [questions] exactly when there is no question. *)
Theorem errors_sit_at_their_question (quizData : Quiz) (i : nat) :
  newErrors quizData !! ("question_" +:+ pretty i)
  = match questions quizData !! i with
    | Some q => if blank (question q) then Some "Question text is required" else None
    | None => None
    end
  ∧ newErrors quizData !! ("options_" +:+ pretty i)
    = match questions quizData !! i with
      | Some q =>
          if (length (filter (λ opt, blank opt = false) (options q)) <? 2)%nat
          then Some "At least 2 options are required" else None
      | None => None
      end
  ∧ newErrors quizData !! "title"
    = (if blank (title quizData) then Some "Quiz title is required" else None)
  ∧ newErrors quizData !! "questions"
    = (if bool_decide (questions quizData = [])
       then Some "At least one question is required" else None).
Proof.
  unfold newErrors.
  set (e0 := if blank (title quizData)
             then <["title" := "Quiz title is required"]> (∅ : gmap string string) else ∅).
  set (e1 := if bool_decide (length (questions quizData) = 0%nat)
             then <["questions" := "At least one question is required"]> e0 else e0).
  assert (∀ k, k ≠ "title" → k ≠ "questions" → e1 !! k = None) as Hfresh.
  { intros k H1 H2. unfold e1, e0.
    destruct (bool_decide _), (blank _);
      rewrite ?(lookup_insert_ne _ "questions") by done;
      rewrite ?(lookup_insert_ne _ "title") by done; apply lookup_empty. }
  fold (questionKey i) (optionsKey i).
  destruct (title_not_a_question_key i) as [Ht1 Ht2].
  destruct (questions_not_a_question_key i) as [Hq1 Hq2].
  repeat split.
  - destruct (questions quizData !! i) as [q |] eqn:Hq.
    + rewrite (forEachQuestion_questionKey _ i 0 e1 q) by (lia || by rewrite Nat.sub_0_r).
      destruct (blank (question q)); [done |]. by apply Hfresh.
    + rewrite forEachQuestion_other_key; [by apply Hfresh |].
      apply lookup_ge_None in Hq. intros j Hj. split.
      * intros H. apply questionKey_inj in H. lia.
      * apply questionKey_optionsKey.
  - destruct (questions quizData !! i) as [q |] eqn:Hq.
    + rewrite (forEachQuestion_optionsKey _ i 0 e1 q) by (lia || by rewrite Nat.sub_0_r).
      destruct (_ <? 2)%nat; [done |]. by apply Hfresh.
    + rewrite forEachQuestion_other_key; [by apply Hfresh |].
      apply lookup_ge_None in Hq. intros j Hj. split.
      * apply not_eq_sym, questionKey_optionsKey.
      * intros H. apply optionsKey_inj in H. lia.
  - rewrite forEachQuestion_other_key by (intros j _; apply title_not_a_question_key).
    unfold e1, e0. destruct (bool_decide _), (blank _);
      rewrite ?(lookup_insert_ne _ "questions") by done;
      rewrite ?lookup_insert_eq; done.
  - rewrite forEachQuestion_other_key by (intros j _; apply questions_not_a_question_key).
    unfold e1. destruct (questions quizData) as [| q0 rest] eqn:Hqs.
    + rewrite !bool_decide_eq_true_2 by done. apply lookup_insert_eq.
    + rewrite !bool_decide_eq_false_2 by done. unfold e0.
      destruct (blank _); rewrite ?lookup_insert_ne by done; apply lookup_empty.
Qed.

(** ** The quiz creator's questions *)

Lemma fmap_other_ids (f : Draft → Draft) (questionId : QuestionId) (qs : list Draft) :
  (∀ q, q ∈ qs → question_id q ≠ questionId) →
  (λ q, if decide (question_id q = questionId) then f q else q) <$> qs = qs.
Proof.
  intros H. induction qs as [| q qs IH]; [done |].
  rewrite fmap_cons, IH by (intros q' Hq'; apply H; by right).
  rewrite decide_False; [done |]. apply H. by left.
Qed.

Lemma filter_other_ids (questionId : QuestionId) (qs : list Draft) :
  (∀ q, q ∈ qs → question_id q ≠ questionId) →
  filter (λ q, question_id q ≠ questionId) qs = qs.
Proof.
  intros H. induction qs as [| q qs IH]; [done |].
  rewrite filter_cons_True by (apply H; by left).
  rewrite IH; [done |]. intros q' Hq'. apply H. by right.
Qed.

Lemma QuizData_eq (d : QuizData) :
  {| data_title := data_title d; data_description := data_description d;
     data_timeLimit := data_timeLimit d; data_questions := data_questions d |} = d.
Proof. by destruct d. Qed.

Lemma filledIn_questions (now : Z) (text a b : string) (prev : QuizData) :
  (∀ q, q ∈ data_questions prev → question_id q ≠ NumberId now) →
  data_questions (filledIn now text a b prev)
  = data_questions prev
    ++ [{| question_id := NumberId now;
           content := {| question := text; options := [a; b; ""; ""];
                         correctAnswer := 0; explanation := "" |} |}].
Proof.
  intros H. unfold filledIn, updateOption, updateQuestion, addQuestion, setQuestions.
  simpl. rewrite !fmap_app.
  rewrite !(fmap_other_ids _ _ (data_questions prev)) by done.
  f_equal. unfold newQuestion.
  repeat (rewrite list_fmap_singleton; cbn [question_id]; rewrite decide_True by done).
  reflexivity.
Qed.

Lemma handBuilt_same_shape (q q' : Draft) :
  question_id q' = question_id q →
  length (options (content q')) = length (options (content q)) →
  correctAnswer (content q') = correctAnswer (content q) →
  handBuilt q → handBuilt q'.
Proof. unfold handBuilt. intros -> -> ->. done. Qed.

Lemma updateQuestion_handBuilt (questionId : QuestionId) (updates : Updates) (d : QuizData) :
  new_id updates = None → new_options updates = None → new_correctAnswer updates = None →
  Forall handBuilt (data_questions d) →
  Forall handBuilt (data_questions (updateQuestion questionId updates d)).
Proof.
  intros H1 H2 H3 H. simpl. apply Forall_fmap. eapply Forall_impl; [exact H |].
  intros q Hq. simpl. destruct (decide _); [| done].
  apply (handBuilt_same_shape q); [| | | done]; simpl.
  - by rewrite H1.
  - by rewrite H2.
  - by rewrite H3.
Qed.

Lemma creatorFire_handBuilt (d : QuizData) (e : CreatorEvent) :
  Forall handBuilt (data_questions d) →
  Forall handBuilt (data_questions (creatorFire d e)).
Proof.
  intros H. destruct e as [now | index | index value | index optionIndex
                           | index optionIndex value | index value | generated]; simpl.
  - apply Forall_app. split; [done |]. apply Forall_singleton. simpl. unfold handBuilt.
    simpl. lia.
  - destruct (data_questions d !! index) as [q0 |]; [| done]. simpl.
    apply Forall_forall. intros q Hq. apply list_elem_of_filter in Hq as [_ Hq].
    by eapply Forall_forall in H.
  - destruct (data_questions d !! index) as [q0 |]; [| done].
    by apply updateQuestion_handBuilt.
  - destruct (data_questions d !! index) as [q0 |] eqn:Hq0; [| done].
    case_bool_decide as Hlt; [| done].
    simpl. apply Forall_fmap. apply Forall_forall. intros q Hq. simpl.
    pose proof (proj1 (Forall_forall _ _) H q Hq) as Hb.
    destruct (decide _) as [Hid |]; [| done].
    pose proof (proj1 (Forall_forall _ _) H q0 (list_elem_of_lookup_2 _ _ _ Hq0)) as Hb0.
    unfold handBuilt in *. simpl. rewrite Hid in *.
    destruct (question_id q0); [| done]. simpl. lia.
  - destruct (data_questions d !! index) as [q0 |]; [| done].
    case_bool_decide; [| done].
    simpl. apply Forall_fmap. eapply Forall_impl; [exact H |].
    intros q Hq. simpl. destruct (decide _); [| done].
    apply (handBuilt_same_shape q); [done | | done | done]. simpl. apply length_imap.
  - destruct (data_questions d !! index) as [q0 |]; [| done].
    by apply updateQuestion_handBuilt.
  - apply Forall_app. split; [done |]. apply Forall_fmap, Forall_forall. done.
Qed.

(** X17: A question just added keeps the quiz from being saved: it brings
    the errors [question_n] and [options_n], where [n] is the number of
    questions there were, and [handleSubmit] does not call [onSave]. *)
Theorem added_question_blocks_saving (now : Z) (prev : QuizData) :
  newErrors (asQuiz (addQuestion now prev))
    !! ("question_" +:+ pretty (length (data_questions prev)))
  = Some "Question text is required"
  ∧ newErrors (asQuiz (addQuestion now prev))
      !! ("options_" +:+ pretty (length (data_questions prev)))
    = Some "At least 2 options are required"
  ∧ validateQuiz (asQuiz (addQuestion now prev)) = false
  ∧ handleSubmit (addQuestion now prev) = None.
Proof.
  set (n := length (data_questions prev)).
  assert (questions (asQuiz (addQuestion now prev)) !! (n - 0)%nat
          = Some (content (newQuestion now))) as Hq.
  { simpl. rewrite fmap_app, Nat.sub_0_r, lookup_app_r by (rewrite length_fmap; done).
    rewrite length_fmap. unfold n. by rewrite Nat.sub_diag. }
  assert (newErrors (asQuiz (addQuestion now prev)) !! questionKey n
          = Some "Question text is required") as H1.
  { unfold newErrors.
    rewrite (forEachQuestion_questionKey _ n 0 _ (content (newQuestion now))); [done | lia | done]. }
  assert (validateQuiz (asQuiz (addQuestion now prev)) = false) as H3.
  { unfold validateQuiz. apply bool_decide_eq_false_2. rewrite map_size_empty_iff.
    intros Heq. rewrite Heq in H1. by rewrite lookup_empty in H1. }
  split; [exact H1 |]. split.
  - fold (optionsKey n). unfold newErrors.
    rewrite (forEachQuestion_optionsKey _ n 0 _ (content (newQuestion now))); [done | lia | done].
  - split; [done |]. unfold handleSubmit. by rewrite H3.
Qed.

(** X18: Once the added question has a text and its first two options, none
    of them blank, it stands at the end of the list as typed, and the
    quiz is saved exactly when the title is not blank and the questions
    there were are acceptable. *)
Theorem filled_in_question_passes (now : Z) (text a b : string) (prev : QuizData) :
  (∀ q, q ∈ data_questions prev → question_id q ≠ NumberId now) →
  blank text = false → blank a = false → blank b = false →
  data_questions (filledIn now text a b prev)
  = data_questions prev
    ++ [{| question_id := NumberId now;
           content := {| question := text; options := [a; b; ""; ""];
                         correctAnswer := 0; explanation := "" |} |}]
  ∧ (handleSubmit (filledIn now text a b prev) = Some (filledIn now text a b prev)
     ↔ blank (data_title prev) = false
       ∧ Forall questionOk (content <$> data_questions prev)).
Proof.
  intros Hfresh Htext Ha Hb.
  pose proof (filledIn_questions now text a b prev Hfresh) as Hqs.
  split; [exact Hqs |].
  assert (validateQuiz (asQuiz (filledIn now text a b prev)) = true
          ↔ blank (data_title prev) = false
            ∧ Forall questionOk (content <$> data_questions prev)) as Hv.
  { unfold validateQuiz. rewrite bool_decide_eq_true, map_size_empty_iff, newErrors_empty.
    unfold asQuiz at 2 3. cbn [questions]. rewrite Hqs, fmap_app, Forall_app.
    cbn [title]. change (data_title (filledIn now text a b prev)) with (data_title prev).
    split.
    - intros (Ht & _ & Hp & _). done.
    - intros [Ht Hp]. split; [done |]. split.
      + intros Heq. by apply app_eq_nil in Heq as [_ ?].
      + split; [done |]. apply Forall_singleton. split; [done |]. simpl.
        rewrite filter_cons_True by done. rewrite filter_cons_True by done. simpl. lia. }
  unfold handleSubmit. destruct (validateQuiz _).
  - split; [intros _; by apply Hv | done].
  - split; [done |]. intros H. apply Hv in H. done.
Qed.

Lemma filled_in_question_passes_witness :
  blank "2 + 2?" = false ∧ blank "3" = false ∧ blank "4" = false
  ∧ data_questions (filledIn 1700000000000 "2 + 2?" "3" "4" (titled "Sums"))
    = [{| question_id := NumberId 1700000000000;
          content := {| question := "2 + 2?"; options := ["3"; "4"; ""; ""];
                        correctAnswer := 0; explanation := "" |} |}]
  ∧ handleSubmit (filledIn 1700000000000 "2 + 2?" "3" "4" (titled "Sums"))
    = Some (filledIn 1700000000000 "2 + 2?" "3" "4" (titled "Sums"))
  ∧ handleSubmit (filledIn 1700000000000 "2 + 2?" "3" "4" initialQuizData) ≠
    Some (filledIn 1700000000000 "2 + 2?" "3" "4" initialQuizData).
Proof.
  split; [reflexivity |]. split; [reflexivity |]. split; [reflexivity |].
  destruct (filled_in_question_passes 1700000000000 "2 + 2?" "3" "4" (titled "Sums"))
    as [Hqs Hsave];
    [intros q Hq; by apply elem_of_nil in Hq | reflexivity | reflexivity | reflexivity |].
  split; [exact Hqs |]. split.
  - apply Hsave. split; [reflexivity | constructor].
  - destruct (filled_in_question_passes 1700000000000 "2 + 2?" "3" "4" initialQuizData)
      as [_ Hnot];
      [intros q Hq; by apply elem_of_nil in Hq | reflexivity | reflexivity | reflexivity |].
    intros H. apply Hnot in H as [H _]. discriminate H.
Defined.

(** X19: The bin of a question just added takes the list back to what it
    was, as long as no other question has its id; and two questions
    added within the same millisecond share their id, so that the bin of
    either removes both. *)
Theorem removeQuestion_undoes_addQuestion (now : Z) (prev : QuizData) :
  (∀ q, q ∈ data_questions prev → question_id q ≠ NumberId now) →
  removeQuestion (NumberId now) (addQuestion now prev) = prev
  ∧ removeQuestion (NumberId now) (addQuestion now (addQuestion now prev)) = prev
  ∧ creatorFire (addQuestion now (addQuestion now prev))
                (RemoveClick (length (data_questions prev))) = prev
  ∧ creatorFire (addQuestion now (addQuestion now prev))
                (RemoveClick (S (length (data_questions prev)))) = prev.
Proof.
  intros Hfresh.
  assert (removeQuestion (NumberId now) (addQuestion now prev) = prev) as H1.
  { unfold removeQuestion, addQuestion, setQuestions. simpl.
    rewrite filter_app, filter_other_ids by done.
    rewrite filter_cons_False by (simpl; intros H; by apply H).
    rewrite filter_nil, app_nil_r. apply QuizData_eq. }
  assert (removeQuestion (NumberId now) (addQuestion now (addQuestion now prev)) = prev)
    as H2.
  { unfold removeQuestion, addQuestion, setQuestions. simpl.
    rewrite !filter_app, filter_other_ids by done.
    rewrite !filter_cons_False by (simpl; intros H; by apply H).
    rewrite filter_nil, !app_nil_r. apply QuizData_eq. }
  split; [exact H1 |]. split; [exact H2 |]. split.
  - unfold creatorFire.
    replace (data_questions (addQuestion now (addQuestion now prev))
               !! length (data_questions prev)) with (Some (newQuestion now)); [exact H2 |].
    simpl. rewrite <- app_assoc. rewrite lookup_app_r by done. by rewrite Nat.sub_diag.
  - unfold creatorFire.
    replace (data_questions (addQuestion now (addQuestion now prev))
               !! S (length (data_questions prev))) with (Some (newQuestion now)); [exact H2 |].
    simpl. rewrite <- app_assoc. rewrite lookup_app_r by lia.
    by replace (S (length (data_questions prev)) - length (data_questions prev))%nat
      with 1%nat by lia.
Qed.

Lemma removeQuestion_undoes_addQuestion_witness :
  removeQuestion (NumberId 1700000000000)
                 (addQuestion 1700000000000 (addQuestion 1700000000000 initialQuizData))
  = initialQuizData.
Proof.
  apply (removeQuestion_undoes_addQuestion 1700000000000 initialQuizData).
  intros q Hq. by apply elem_of_nil in Hq.
Defined.

(** X20: Whatever is clicked, typed or generated in the creator, every
    question that was added by hand has four options and a correct
    answer that is one of them. *)
Theorem hand_built_questions_keep_shape (events : list CreatorEvent) :
  Forall handBuilt (data_questions (creatorPlay events initialQuizData)).
Proof.
  unfold creatorPlay.
  assert (∀ d, Forall handBuilt (data_questions d) →
               Forall handBuilt (data_questions (foldl creatorFire d events))) as H.
  { induction events as [| e events IH]; intros d Hd; [done |].
    simpl. apply IH. by apply creatorFire_handBuilt. }
  apply H. simpl. constructor.
Qed.

(** ** The progress tracker *)

Lemma totalLessons_lessonIds (ms : list CourseModule) :
  ∀ total,
    foldl (λ total module, (total + lessonCount module)%nat) total ms
    = (total + length (lessonIds ms))%nat.
Proof.
  induction ms as [| module ms IH]; intros total; [simpl; lia |].
  cbn [foldl]. rewrite IH. unfold lessonIds. rewrite bind_cons, length_app, length_fmap.
  unfold lessonCount. destruct (lessons module); simpl; lia.
Qed.





(** X22: The overall progress counts the entries of [completedLessons], not
    the lessons of the course that are completed.  When the entries are
    distinct ids of lessons of the course, and the course has from 1 to
    199 lessons, it is a whole number from 0 to 100, and, the lessons
    having distinct ids, it is 100 exactly when every lesson is
    completed; with an entry that is no lesson of the course it goes
    beyond 100. *)
Theorem overall_progress_range (ms : list CourseModule) (done : list string) :
  (1 ≤ length (lessonIds ms) ≤ 199)%nat →
  NoDup done →
  (∀ lessonId, lessonId ∈ done → lessonId ∈ lessonIds ms) →
  (∃ p, calculateOverallProgress {| modules := Some ms |}
                                 (Some {| completedLessons := Some done |}) = Int p
        ∧ 0 ≤ p ≤ 100
        ∧ (NoDup (lessonIds ms) →
           (p = 100 ↔ ∀ lessonId, lessonId ∈ lessonIds ms →
                        isLessonCompleted (Some {| completedLessons := Some done |}) lessonId
                        = true)))
  ∧ calculateOverallProgress
      {| modules := Some [{| lessons := Some [mkLesson "a"] |}] |}
      (Some {| completedLessons := Some ["a"; "x"] |}) = Int 200.
Proof.
  intros Hlen Hnd Hsub. split; [| vm_compute; reflexivity].
  unfold calculateOverallProgress. simpl.
  rewrite totalLessons_lessonIds. simpl.
  destruct (Nat.ltb_spec 0 (length (lessonIds ms))) as [_ |]; [| lia].
  pose proof (submseteq_length _ _ (NoDup_submseteq _ _ Hnd Hsub)) as Hle.
  destruct (percentage_well_scored (length done) (length (lessonIds ms)))
    as (p & Hp & Hrange & _ & Hfull & _); [lia | done |].
  exists p. split; [done |]. split; [done |].
  intros Hids. rewrite Hfull. split.
  - intros Heq lessonId Hin. apply bool_decide_eq_true_2.
    assert (done ≡ₚ lessonIds ms) as Hperm.
    { apply submseteq_length_Permutation; [by apply NoDup_submseteq | lia]. }
    by rewrite Hperm.
  - intros Hall. apply Nat.le_antisymm; [done |].
    apply submseteq_length, NoDup_submseteq; [done |].
    intros lessonId Hin. eapply bool_decide_eq_true_1, Hall, Hin.
Qed.

Lemma overall_progress_range_witness :
  ∃ p, calculateOverallProgress
         {| modules := Some [{| lessons := Some [mkLesson "a"; mkLesson "b"] |};
                             {| lessons := None |};
                             {| lessons := Some [mkLesson "c"] |}] |}
         (Some {| completedLessons := Some ["c"; "a"] |}) = Int p
       ∧ 0 ≤ p ≤ 100.
Proof.
  destruct (overall_progress_range
              [{| lessons := Some [mkLesson "a"; mkLesson "b"] |};
               {| lessons := None |};
               {| lessons := Some [mkLesson "c"] |}] ["c"; "a"])
    as [(p & Hp & Hr & _) _].
  - change (1 ≤ 3 ≤ 199)%nat. lia.
  - apply (bool_decide_unpack _). reflexivity.
  - change (∀ lessonId, lessonId ∈ ["c"; "a"] → lessonId ∈ ["a"; "b"; "c"]).
    intros lessonId Hin. rewrite !elem_of_cons in Hin. rewrite !elem_of_cons.
    destruct Hin as [-> | [-> | Hin]]; [tauto | tauto |]. by apply elem_of_nil in Hin.
  - exists p. split; [exact Hp | exact Hr].
Defined.

(** ** A perfect run *)

Lemma countCorrect_all_correct (a : gmap nat nat) (qs : list Question) :
  ∀ index,
    (∀ j q, qs !! j = Some q → a !! (index + j)%nat = Some (correctAnswer q)) →
    countCorrect a index qs = length qs.
Proof.
  induction qs as [| q rest IH]; intros index H; [done |].
  simpl. rewrite IH.
  - unfold isCorrect. rewrite bool_decide_eq_true_2; [done |].
    rewrite <- (Nat.add_0_r index). by apply H.
  - intros j q' Hj. replace (S index + j)%nat with (index + S j)%nat by lia. by apply H.
Qed.

Lemma play_app (quiz : Quiz) (events events' : list Event) (w : World) :
  play quiz (events ++ events') w = play quiz events' (play quiz events w).
Proof. apply foldl_app. Qed.

(** Answering the rest of the questions in turn, from the first of them
    on: the session ends on the last question, with the correct option
    recorded for each of them and nothing else changed. *)
Lemma answerInTurn_answers (quiz : Quiz) (rest : list Question) :
  ∀ (before : list Question) (w : World),
    questions quiz = before ++ rest →
    rest ≠ [] →
    Forall answerable rest →
    showResults (session w) = false →
    currentQuestion (session w) = length before →
    showResults (session (play quiz (answerInTurn rest) w)) = false
    ∧ quizCompleted (session (play quiz (answerInTurn rest) w)) = quizCompleted (session w)
    ∧ timeRemaining (session (play quiz (answerInTurn rest) w)) = timeRemaining (session w)
    ∧ delivered (play quiz (answerInTurn rest) w) = delivered w
    ∧ S (currentQuestion (session (play quiz (answerInTurn rest) w)))
      = length (questions quiz)
    ∧ (∀ j q, rest !! j = Some q →
         answers (session (play quiz (answerInTurn rest) w)) !! (length before + j)%nat
         = Some (correctAnswer q))
    ∧ (∀ i, (i < length before)%nat →
         answers (session (play quiz (answerInTurn rest) w)) !! i = answers (session w) !! i).
Proof.
  induction rest as [| q rest IH]; intros before w Hqs Hne Hok Hshow Hcur; [done |].
  apply Forall_cons in Hok as [Hq Hok].
  assert (questions quiz !! currentQuestion (session w) = Some q) as Hlook.
  { rewrite Hqs, Hcur, lookup_app_r by done. by rewrite Nat.sub_diag. }
  set (w1 := onSession (handleAnswerSelect (currentQuestion (session w)) (correctAnswer q)) w).
  assert (click quiz (OptionRadio (correctAnswer q)) w = w1) as Hclick1.
  { unfold click, rendered, disabled. rewrite Hshow, Hlook.
    by rewrite bool_decide_eq_true_2. }
  assert (length (questions quiz) = (length before + S (length rest))%nat) as Hlen.
  { rewrite Hqs, length_app. done. }
  unfold answerInTurn. rewrite bind_cons. fold (answerInTurn rest).
  change (play quiz ([Click (OptionRadio (correctAnswer q)); Click NextButton]
                       ++ answerInTurn rest) w)
    with (play quiz (answerInTurn rest)
            (click quiz NextButton (click quiz (OptionRadio (correctAnswer q)) w))).
  rewrite Hclick1.
  assert (hasOwnProperty (answers (session w1)) (currentQuestion (session w1)) = true)
    as Hown.
  { apply bool_decide_eq_true_2. simpl. rewrite lookup_insert_eq. by eexists. }
  destruct rest as [| q' rest'].
  - (* the last question: there is no Next button *)
    assert (click quiz NextButton w1 = w1) as ->.
    { unfold click, rendered. simpl. rewrite Hshow, Hlook.
      unfold onLastQuestion. simpl.
      destruct (Z.eqb_spec (Z.of_nat (currentQuestion (session w)))
                           (Z.of_nat (length (questions quiz)) - 1)); [done |].
      simpl in Hlen. lia. }
    simpl. repeat split; try done.
    + rewrite Hlen, Hcur. simpl. lia.
    + intros j q0 Hj. destruct j as [| j]; [| done]. injection Hj as <-.
      rewrite Nat.add_0_r, <- Hcur. apply lookup_insert_eq.
    + intros i Hi. apply lookup_insert_ne. lia.
  - set (w2 := onSession (handleNext quiz) w1).
    assert (onLastQuestion quiz (session w1) = false) as Hlast.
    { unfold onLastQuestion. simpl. apply Z.eqb_neq. simpl in Hlen. lia. }
    assert (click quiz NextButton w1 = w2) as ->.
    { unfold click, rendered, disabled. simpl. rewrite Hshow, Hlook.
      change (onLastQuestion quiz (handleAnswerSelect _ _ (session w)))
        with (onLastQuestion quiz (session w1)).
      rewrite Hlast. simpl.
      change (hasOwnProperty _ _)
        with (hasOwnProperty (answers (session w1)) (currentQuestion (session w1))).
      by rewrite Hown. }
    assert (session w2
            = setCurrentQuestion (S (currentQuestion (session w))) (session w1)) as Hw2.
    { unfold w2. simpl. unfold handleNext. simpl.
      destruct (Z.ltb_spec (Z.of_nat (currentQuestion (session w)))
                           (Z.of_nat (length (questions quiz)) - 1)); [done |].
      simpl in Hlen. lia. }
    destruct (IH (before ++ [q]) w2) as (H1 & H2 & H3 & H4 & H5 & H6 & H7).
    + by rewrite <- app_assoc.
    + done.
    + done.
    + by rewrite Hw2.
    + rewrite Hw2, length_app. simpl. lia.
    + rewrite H1, H2, H3, H4, H5. rewrite Hw2. simpl.
      repeat split; try done.
      * intros j q0 Hj. destruct j as [| j].
        -- injection Hj as <-. rewrite Nat.add_0_r.
           rewrite H7 by (rewrite length_app; simpl; lia).
           rewrite Hw2. simpl. rewrite <- Hcur. apply lookup_insert_eq.
        -- replace (length before + S j)%nat with (length (before ++ [q]) + j)%nat
             by (rewrite length_app; simpl; lia).
           by apply H6.
      * intros i Hi. rewrite H7 by (rewrite length_app; simpl; lia).
        rewrite Hw2. simpl. apply lookup_insert_ne. lia.
Qed.

(** X23: A quiz can be taken to a perfect result: for a quiz of from 1 to
    199 questions, each with its correct option among its options, and
    a time limit other than zero, choosing the correct option of each
    question in turn, moving on with Next and clicking Submit at the end
    submits the quiz with the score 100, passes that score to
    [onComplete] once, and shows every answer as correct. *)
Theorem perfect_run_scores_100 (quiz : Quiz) :
  (1 ≤ length (questions quiz) ≤ 199)%nat →
  is0 (timeLimit quiz) = false →
  Forall answerable (questions quiz) →
  status (session (play quiz (perfectRun quiz) (mount quiz))) = Submitted
  ∧ score (session (play quiz (perfectRun quiz) (mount quiz))) = Int 100
  ∧ result_score <$> delivered (play quiz (perfectRun quiz) (mount quiz)) = [Int 100]
  ∧ summaryCorrect quiz (session (play quiz (perfectRun quiz) (mount quiz)))
    = Some (length (questions quiz)).
Proof.
  intros Hlen Hlimit Hok.
  assert (mount quiz = {| session := initialState quiz; delivered := [] |}) as Hmount.
  { unfold mount. apply timerEffect_not_zero. simpl. by rewrite is0_mul_60. }
  assert (questions quiz ≠ []) as Hne.
  { intros Heq. rewrite Heq in Hlen. simpl in Hlen. lia. }
  unfold perfectRun. rewrite play_app.
  destruct (answerInTurn_answers quiz (questions quiz) [] (mount quiz))
    as (H1 & H2 & H3 & H4 & H5 & H6 & _); try done; try (by rewrite Hmount).
  set (w := play quiz (answerInTurn (questions quiz)) (mount quiz)) in *.
  rewrite Hmount in H2, H4. simpl in H2, H4.
  assert (∀ j q, questions quiz !! j = Some q →
                 answers (session w) !! j = Some (correctAnswer q)) as Hanswers.
  { intros j q Hq. exact (H6 j q Hq). }
  clear H6.
  assert (allQuestionsAnswered quiz (session w) = true) as Hall.
  { apply allQuestionsAnswered_iff. intros index Hlt.
    destruct (lookup_lt_is_Some_2 (questions quiz) index Hlt) as [q Hq].
    rewrite (Hanswers index q Hq). by eexists. }
  assert (fire quiz w (Click SubmitButton) = submit quiz w) as Hsubmit.
  { simpl. unfold click, rendered, disabled. rewrite H1, Hall.
    destruct (lookup_lt_is_Some_2 (questions quiz) (currentQuestion (session w)))
      as [q ->]; [lia |].
    assert (onLastQuestion quiz (session w) = true) as ->.
    { unfold onLastQuestion. apply Z.eqb_eq. lia. }
    simpl. by apply timerEffect_completed. }
  change (play quiz [Click SubmitButton] w) with (fire quiz w (Click SubmitButton)).
  rewrite Hsubmit.
  assert (countCorrect (answers (session w)) 0 (questions quiz) = length (questions quiz))
    as Hcount.
  { apply countCorrect_all_correct. intros j q Hq. by apply Hanswers. }
  assert (calculateScore quiz (answers (session w)) = Int 100) as Hscore.
  { unfold calculateScore. rewrite Hcount.
    destruct (percentage_well_scored (length (questions quiz)) (length (questions quiz)))
      as (p & -> & _ & _ & Hfull & _); [done | done |].
    f_equal. by apply Hfull. }
  split; [done |]. split; [exact Hscore |]. split.
  - unfold submit. simpl. rewrite H4. simpl. by rewrite Hscore.
  - rewrite (summaryCorrect_all_answered quiz (session (submit quiz w))).
    + change (answers (session (submit quiz w))) with (answers (session w)).
      by rewrite Hcount.
    + exact Hall.
    + exact (play_keysInRange quiz (answerInTurn (questions quiz)) (mount quiz)
                              (mount_keysInRange quiz)).
Qed.

Lemma perfect_run_scores_100_witness :
  (1 ≤ length (questions (quiz3 (Int 10))) ≤ 199)%nat
  ∧ is0 (timeLimit (quiz3 (Int 10))) = false
  ∧ score (session (play (quiz3 (Int 10)) (perfectRun (quiz3 (Int 10)))
                         (mount (quiz3 (Int 10))))) = Int 100.
Proof.
  split; [simpl; lia |]. split; [reflexivity |].
  apply (perfect_run_scores_100 (quiz3 (Int 10))); [simpl; lia | reflexivity |].
  repeat constructor.
Defined.
